(** * validate_ontology.py: the ontology bundle validator

    A shallow embedding of [validate_ontology.py].  The YAML and JSON trees
    the script walks are Python objects; they are modelled by [value].  The
    script appends to two Python lists ([errors], [warnings]) and may die
    from an uncaught exception at almost every attribute access, so the rule
    functions live in a small state-and-exception monad [M]. *)

From Stdlib Require Import ZArith List String Ascii Bool Lia.
From Stdlib Require Import Sorting.Sorted DecimalString OrderedTypeEx.
From Stdlib Require Import Floats.SpecFloat.
Import ListNotations.
Local Open Scope string_scope.
Local Open Scope list_scope.
Local Open Scope Z_scope.
Set Warnings "-register-all".

(** ** Python objects *)

(** Binary64 numbers, as IEEE 754 specifies them. *)
Definition prec : Z := 53.
Definition emax : Z := 1024.
Definition float64 : Type := spec_float.

(** What [yaml.safe_load] and [json.loads] build: [None], booleans,
    integers, floats, strings, lists and dicts with string keys.  A dict
    keeps its insertion order; its keys are pairwise distinct.  A string
    is held as the bytes of its UTF-8 encoding, whose order and equality
    are those of the code points. *)
Inductive value : Type :=
| VNone
| VBool (b : bool)
| VInt (n : Z)
| VFloat (x : float64)
| VStr (s : string)
| VList (xs : list value)
| VDict (kvs : list (string * value)).

(** The exceptions the script can die from. *)
Inductive exn : Type :=
| AttributeError
| TypeError
| ValueError
| OverflowError
| KeyError (k : string)
| UnicodeDecodeError
| OSError
| LibraryError (what : string).

Inductive result (A : Type) : Type :=
| Ok (a : A)
| Raise (e : exn).
Arguments Ok {A} a.
Arguments Raise {A} e.

Definition rbind {A B} (r : result A) (k : A -> result B) : result B :=
  match r with
  | Ok a => k a
  | Raise e => Raise e
  end.

Declare Scope result_scope.
Delimit Scope result_scope with result.
Notation "x <- r ;; k" := (rbind r (fun x => k))
  (at level 61, r at next level, right associativity) : result_scope.

(** An f-string before it is rendered: literal text, [{v}] and [{v!r}]. *)
Inductive fpart : Type :=
| Text (s : string)
| Str (v : value)
| Repr (v : value).

Definition message : Type := list fpart.

(** ** Floats *)

Definition is_infinity (x : float64) : bool :=
  match x with S754_infinity _ => true | _ => false end.

Definition is_nan (x : float64) : bool :=
  match x with S754_nan => true | _ => false end.

Definition is_finite (x : float64) : bool :=
  match x with S754_zero _ | S754_finite _ _ _ => true | _ => false end.

Definition fsub : float64 -> float64 -> float64 := SFsub prec emax.
Definition fmul : float64 -> float64 -> float64 := SFmul prec emax.
Definition fdiv : float64 -> float64 -> float64 := SFdiv prec emax.
Definition fabs : float64 -> float64 := SFabs.
Definition feqb : float64 -> float64 -> bool := SFeqb.
Definition fleb : float64 -> float64 -> bool := SFleb.
Definition fltb : float64 -> float64 -> bool := SFltb.

(** [float(n)] for an integer [n]: the nearest binary64 number, ties to
    even; [OverflowError] when that is out of range. *)
Definition float_of_Z (n : Z) : result float64 :=
  let x := binary_normalize prec emax n 0 false in
  if is_infinity x then Raise OverflowError else Ok x.

(** A float literal [n.0]. *)
Definition float_lit (n : Z) : float64 := binary_normalize prec emax n 0 false.

Definition f0 : float64 := S754_zero false.
Definition f30 : float64 := Eval cbv in float_lit 30.
Definition f360 : float64 := Eval cbv in float_lit 360.
(** [29.5] is [59 * 2^-1]. *)
Definition f29_5 : float64 := Eval cbv in binary_normalize prec emax 59 (-1) false.
(** The literal [1e-9]: the binary64 number nearest to [1 / 10^9]. *)
Definition f1e_9 : float64 := Eval cbv in fdiv (float_lit 1) (float_lit 1000000000).

(** ** Comparison of numbers

    Python compares [bool], [int] and [float] by their exact numeric value. *)

Definition Z_of_bool (b : bool) : Z := if b then 1 else 0.

(** [n] against the float [(-1)^s * m * 2^e]. *)
Definition compare_Z_finite (n : Z) (s : bool) (m : positive) (e : Z) : comparison :=
  let sm := if s then Z.neg m else Z.pos m in
  if 0 <=? e then Z.compare n (sm * 2 ^ e)
  else Z.compare (n * 2 ^ (- e)) sm.

Definition compare_Z_float (n : Z) (x : float64) : option comparison :=
  match x with
  | S754_nan => None
  | S754_infinity s => Some (if s then Gt else Lt)
  | S754_zero _ => Some (Z.compare n 0)
  | S754_finite s m e => Some (compare_Z_finite n s m e)
  end.

Definition is_number (v : value) : bool :=
  match v with VBool _ | VInt _ | VFloat _ => true | _ => false end.

(** [None] on a NaN operand, and on operands that are not numbers. *)
Definition num_compare (a b : value) : option comparison :=
  match a, b with
  | VFloat x, VFloat y => SFcompare x y
  | VFloat x, VInt n => option_map CompOpp (compare_Z_float n x)
  | VFloat x, VBool c => option_map CompOpp (compare_Z_float (Z_of_bool c) x)
  | VInt n, VFloat y => compare_Z_float n y
  | VBool c, VFloat y => compare_Z_float (Z_of_bool c) y
  | VInt n, VInt k => Some (Z.compare n k)
  | VInt n, VBool c => Some (Z.compare n (Z_of_bool c))
  | VBool c, VInt k => Some (Z.compare (Z_of_bool c) k)
  | VBool c, VBool d => Some (Z.compare (Z_of_bool c) (Z_of_bool d))
  | _, _ => None
  end.

Definition num_eqb (a b : value) : bool :=
  match num_compare a b with Some Eq => true | _ => false end.

(** ** Dicts *)

Fixpoint lookup {A} (k : string) (kvs : list (string * A)) : option A :=
  match kvs with
  | [] => None
  | (k', v) :: rest => if String.eqb k k' then Some v else lookup k rest
  end.

(** ** [==] and [!=]

    Equality by value: numbers by their numeric value, strings and lists
    element by element, dicts key by key.  (Python first tests the elements
    of two containers for identity; identity is not part of a value.) *)

Fixpoint py_eq (a b : value) {struct a} : bool :=
  match a, b with
  | VNone, VNone => true
  | VStr s, VStr t => String.eqb s t
  | VList xs, VList ys =>
      (fix all2 (xs ys : list value) {struct xs} : bool :=
         match xs, ys with
         | [], [] => true
         | x :: xs', y :: ys' => py_eq x y && all2 xs' ys'
         | _, _ => false
         end) xs ys
  | VDict d1, VDict d2 =>
      Nat.eqb (List.length d1) (List.length d2) &&
      (fix every (d : list (string * value)) {struct d} : bool :=
         match d with
         | [] => true
         | (k, v) :: d' =>
             match lookup k d2 with
             | Some w => py_eq v w
             | None => false
             end && every d'
         end) d1
  | (VBool _ | VInt _ | VFloat _), (VBool _ | VInt _ | VFloat _) => num_eqb a b
  | _, _ => false
  end.

Definition py_ne (a b : value) : bool := negb (py_eq a b).

(** ** Truth value, [is None], [isinstance(v, dict)] *)

Definition truthy (v : value) : bool :=
  match v with
  | VNone => false
  | VBool b => b
  | VInt n => negb (n =? 0)
  | VFloat x => negb (feqb x f0)
  | VStr s => negb (String.eqb s "")
  | VList xs => match xs with [] => false | _ => true end
  | VDict kvs => match kvs with [] => false | _ => true end
  end.

Definition is_None (v : value) : bool :=
  match v with VNone => true | _ => false end.

Definition is_dict (v : value) : bool :=
  match v with VDict _ => true | _ => false end.

(** ** Attribute access, iteration, [len], [in] *)

(** [x.get(k, default)]: only a dict has the method. *)
Definition get (x : value) (k : string) (default : value) : result value :=
  match x with
  | VDict kvs => Ok (match lookup k kvs with Some v => v | None => default end)
  | _ => Raise AttributeError
  end.

(** [x.values()] and [x.keys()]. *)
Definition values (x : value) : result (list value) :=
  match x with
  | VDict kvs => Ok (map snd kvs)
  | _ => Raise AttributeError
  end.

Definition keys (x : value) : result (list value) :=
  match x with
  | VDict kvs => Ok (map (fun kv => VStr (fst kv)) kvs)
  | _ => Raise AttributeError
  end.

(** The bytes [10xxxxxx] that continue a character in UTF-8. *)
Definition is_continuation (c : ascii) : bool :=
  match c with
  | Ascii _ _ _ _ _ _ false true => true
  | _ => false
  end.

(** The characters (code points) of a string, each with the bytes that
    encode it. *)
Fixpoint code_points (s : string) : list string :=
  match s with
  | EmptyString => []
  | String c rest =>
      match rest with
      | String d _ =>
          if is_continuation d then
            match code_points rest with
            | following :: others => String c following :: others
            | [] => [String c EmptyString]
            end
          else String c EmptyString :: code_points rest
      | EmptyString => [String c EmptyString]
      end
  end.

Definition chars (s : string) : list value := map VStr (code_points s).

(** What [for item in x] runs through: the elements of a list, the
    characters of a string, the keys of a dict. *)
Definition iter (x : value) : result (list value) :=
  match x with
  | VList xs => Ok xs
  | VStr s => Ok (chars s)
  | VDict kvs => Ok (map (fun kv => VStr (fst kv)) kvs)
  | _ => Raise TypeError
  end.

Definition len (x : value) : result Z :=
  match x with
  | VList xs => Ok (Z.of_nat (List.length xs))
  | VStr s => Ok (Z.of_nat (List.length (code_points s)))
  | VDict kvs => Ok (Z.of_nat (List.length kvs))
  | _ => Raise TypeError
  end.

(** [x in xs] for a list [xs]. *)
Definition list_contains (xs : list value) (x : value) : bool :=
  existsb (fun e => py_eq e x) xs.

(** [k in x] for a string [k]: a key of a dict, an element of a list, a
    substring of a string. *)
Definition contains (x : value) (k : string) : result bool :=
  match x with
  | VDict kvs => Ok (match lookup k kvs with Some _ => true | None => false end)
  | VList xs => Ok (list_contains xs (VStr k))
  | VStr s => Ok (match String.index 0 k s with Some _ => true | None => false end)
  | _ => Raise TypeError
  end.

(** [d[k]] on the mapping of loaded modules. *)
Definition subscript {A} (d : list (string * A)) (k : string) : result A :=
  match lookup k d with
  | Some v => Ok v
  | None => Raise (KeyError k)
  end.

(** ** Sets

    A set is kept as the list of its elements, without repetition, in the
    order they were added; nothing below depends on that order but
    [sorted], which needs none when the elements are totally ordered. *)

Definition hashable (v : value) : bool :=
  match v with VList _ | VDict _ => false | _ => true end.

Definition set_mem (x : value) (s : list value) : bool :=
  existsb (fun e => py_eq e x) s.

Definition set_add (s : list value) (x : value) : result (list value) :=
  if hashable x then Ok (if set_mem x s then s else s ++ [x])
  else Raise TypeError.

Fixpoint set_update_list (s : list value) (xs : list value) : result (list value) :=
  match xs with
  | [] => Ok s
  | x :: xs' => (s' <- set_add s x ;; set_update_list s' xs')%result
  end.

(** [s.update(x)] and [set(x)]. *)
Definition set_update (s : list value) (x : value) : result (list value) :=
  (xs <- iter x ;; set_update_list s xs)%result.

Definition py_set (x : value) : result (list value) := set_update [] x.

(** [a - b]. *)
Definition set_diff (a b : list value) : list value :=
  filter (fun x => negb (set_mem x b)) a.

(** [a < b] between elements of a set: numbers among themselves, strings
    among themselves (by code point), [TypeError] otherwise. *)
Definition key_lt (a b : value) : result bool :=
  match a, b with
  | VStr s, VStr t => Ok (String.ltb s t)
  | _, _ =>
      if is_number a && is_number b
      then Ok (match num_compare a b with Some Lt => true | _ => false end)
      else Raise TypeError
  end.

Fixpoint insert_sorted (x : value) (l : list value) : result (list value) :=
  match l with
  | [] => Ok [x]
  | y :: l' =>
      (b <- key_lt x y ;;
       if b then Ok (x :: y :: l')
       else (r <- insert_sorted x l' ;; Ok (y :: r)))%result
  end.

(** [sorted(s)] for a set [s]. *)
Fixpoint sorted (s : list value) : result (list value) :=
  match s with
  | [] => Ok []
  | x :: s' => (r <- sorted s' ;; insert_sorted x r)%result
  end.

(** ** The diagnostics list

    A rule receives the list [errors] and appends to it; it returns nothing
    or dies from an exception. *)

Definition M (A : Type) : Type := list message -> result (A * list message).

Definition ret {A} (a : A) : M A := fun errors => Ok (a, errors).

Definition bind {A B} (m : M A) (k : A -> M B) : M B :=
  fun errors =>
    match m errors with
    | Ok (a, errors') => k a errors'
    | Raise e => Raise e
    end.

Definition lift {A} (r : result A) : M A :=
  fun errors =>
    match r with
    | Ok a => Ok (a, errors)
    | Raise e => Raise e
    end.

(** [errors.append(msg)]. *)
Definition append (msg : message) : M unit :=
  fun errors => Ok (tt, errors ++ [msg]).

Declare Scope M_scope.
Delimit Scope M_scope with M.
Notation "x <- m ;; k" := (bind m (fun x => k))
  (at level 61, m at next level, right associativity) : M_scope.
Notation "m ;; k" := (bind m (fun _ => k))
  (at level 61, right associativity) : M_scope.

Fixpoint for_each {A} (xs : list A) (body : A -> M unit) : M unit :=
  match xs with
  | [] => ret tt
  | x :: xs' => (body x ;; for_each xs' body)%M
  end.

(** The list a rule leaves behind, when it returns. *)
Definition run (m : M unit) (errors : list message) : result (list message) :=
  match m errors with
  | Ok (_, errors') => Ok errors'
  | Raise e => Raise e
  end.

(** ** Module constants *)

Definition YAML_FILES : list (string * string) :=
  [ ("cbim_framework", "cbim_framework.yaml");
    ("clinical_entities", "clinical_entities.yaml");
    ("imaging_cdes", "imaging_cdes.yaml");
    ("temporal_phases", "temporal_phases.yaml");
    ("provenance", "provenance.yaml");
    ("implementation_science", "implementation_science.yaml");
    ("methodology_extraction", "methodology_extraction.yaml") ].

Definition EXPECTED_THRESHOLDS : list (string * value) :=
  [ ("gfap_pg_ml", VFloat f30);
    ("uchl1_pg_ml", VFloat f360) ].

Definition EXPECTED_KINETICS : list (string * value) :=
  [ ("gfap_clearance_half_life_hours", VInt 24);
    ("gfap_clearance_half_life_range_hours", VList [VInt 24; VInt 36]);
    ("uchl1_clearance_half_life_hours", VInt 8);
    ("uchl1_clearance_half_life_range_hours", VList [VInt 7; VInt 9]) ].

Definition empty_dict : value := VDict [].
Definition empty_list : value := VList [].

(** ** [math.isclose]

    The standard library's function, as its documentation defines it:
    equal operands are close, an infinity is close to nothing else, and
    otherwise the difference is held against both tolerances. *)
Definition isclose (a b rel_tol abs_tol : float64) : result bool :=
  if fltb rel_tol f0 || fltb abs_tol f0 then Raise ValueError
  else if feqb a b then Ok true
  else if is_infinity a || is_infinity b then Ok false
  else
    let diff := fabs (fsub b a) in
    Ok (fleb diff (fabs (fmul rel_tol b))
        || fleb diff (fabs (fmul rel_tol a))
        || fleb diff abs_tol).

Definition f1 : float64 := Eval cbv in float_lit 1.

(** The default of [tol]. *)
Definition default_tol : float64 := f1e_9.

Section Validator.

(** [float(s)] for a string [s] is the interpreter's parser of decimal
    literals; the validator never depends on what it answers, so it is left
    open here: a float, or the [ValueError] of a string that is no number. *)
Variable float_of_str : string -> result float64.

(** [float(v)]. *)
Definition py_float (v : value) : result float64 :=
  match v with
  | VFloat x => Ok x
  | VInt n => float_of_Z n
  | VBool b => Ok (if b then f1 else f0)
  | VStr s => float_of_str s
  | VNone | VList _ | VDict _ => Raise TypeError
  end.

Definition nearly_equal (a b : value) (tol : float64) : result bool :=
  (x <- py_float a ;;
   y <- py_float b ;;
   isclose x y f0 tol)%result.

(** The loop of [get_biomarker_threshold]. *)
Fixpoint first_threshold (items : list value) (analyte_id : string) : result value :=
  match items with
  | [] => Ok VNone
  | item :: rest =>
      (id <- get item "id" VNone ;;
       if py_eq id (VStr analyte_id) then get item "ct_threshold" VNone
       else first_threshold rest analyte_id)%result
  end.

Definition get_biomarker_threshold (cbim : value) (analyte_id : string) : result value :=
  (channels <- get cbim "channels" empty_dict ;;
   biomarker <- get channels "biomarker" empty_dict ;;
   variables <- get biomarker "variables" empty_list ;;
   items <- iter variables ;;
   first_threshold items analyte_id)%result.

(** *** Rule 1 *)

Definition validate_threshold_consistency (cbim provenance : value) : M unit :=
  (cbim_gfap <- lift (get_biomarker_threshold cbim "gfap_pg_ml") ;;
   cbim_uchl1 <- lift (get_biomarker_threshold cbim "uchl1_pg_ml") ;;
   prov_gfap <- lift (tp <- get provenance "threshold_provenance" empty_dict ;;
                      blk <- get tp "gfap_ct_threshold" empty_dict ;;
                      get blk "value" VNone)%result ;;
   prov_uchl1 <- lift (tp <- get provenance "threshold_provenance" empty_dict ;;
                       blk <- get tp "uchl1_ct_threshold" empty_dict ;;
                       get blk "value" VNone)%result ;;
   (if is_None cbim_gfap then
      append [Text "cbim_framework.yaml missing biomarker variable 'gfap_pg_ml' ct_threshold"]
    else
      expected <- lift (subscript EXPECTED_THRESHOLDS "gfap_pg_ml") ;;
      close <- lift (nearly_equal cbim_gfap expected default_tol) ;;
      if negb close then
        append [Text "GFAP threshold mismatch in cbim_framework.yaml: ";
                Str cbim_gfap; Text " != "; Str expected]
      else ret tt) ;;
   (if is_None cbim_uchl1 then
      append [Text "cbim_framework.yaml missing biomarker variable 'uchl1_pg_ml' ct_threshold"]
    else
      expected <- lift (subscript EXPECTED_THRESHOLDS "uchl1_pg_ml") ;;
      close <- lift (nearly_equal cbim_uchl1 expected default_tol) ;;
      if negb close then
        append [Text "UCH-L1 threshold mismatch in cbim_framework.yaml: ";
                Str cbim_uchl1; Text " != "; Str expected]
      else ret tt) ;;
   (if is_None prov_gfap then
      append [Text "provenance.yaml missing threshold_provenance.gfap_ct_threshold.value"]
    else
      expected <- lift (subscript EXPECTED_THRESHOLDS "gfap_pg_ml") ;;
      close <- lift (nearly_equal prov_gfap expected default_tol) ;;
      if negb close then
        append [Text "GFAP threshold mismatch in provenance.yaml: ";
                Str prov_gfap; Text " != "; Str expected]
      else ret tt) ;;
   (if is_None prov_uchl1 then
      append [Text "provenance.yaml missing threshold_provenance.uchl1_ct_threshold.value"]
    else
      expected <- lift (subscript EXPECTED_THRESHOLDS "uchl1_pg_ml") ;;
      close <- lift (nearly_equal prov_uchl1 expected default_tol) ;;
      if negb close then
        append [Text "UCH-L1 threshold mismatch in provenance.yaml: ";
                Str prov_uchl1; Text " != "; Str expected]
      else ret tt))%M.

(** *** Rule 2 *)

Definition required_context : list value := [VStr "adult"; VStr "mild_tbi"].

Definition validate_provenance_applicability (provenance : value) : M unit :=
  (threshold_provenance <- lift (get provenance "threshold_provenance" empty_dict) ;;
   for_each ["gfap_ct_threshold"; "uchl1_ct_threshold"] (fun field =>
     applies_to <- lift (blk <- get threshold_provenance field empty_dict ;;
                         get blk "applies_to" VNone)%result ;;
     if is_None applies_to then
       append [Text "provenance.yaml missing threshold_provenance.";
               Str (VStr field); Text ".applies_to"]
     else
       missing <- lift (declared <- py_set applies_to ;;
                        sorted (set_diff required_context declared))%result ;;
       if truthy (VList missing) then
         append [Text "provenance.yaml "; Str (VStr field);
                 Text ".applies_to missing required contexts: "; Str (VList missing)]
       else ret tt))%M.

(** *** Rule 3 *)

Definition validate_temporal_kinetics (temporal : value) : M unit :=
  (subacute <- lift (phases <- get temporal "phases" empty_dict ;;
                     get phases "subacute" empty_dict)%result ;;
   windows <- lift (get subacute "key_biomarker_windows" empty_dict) ;;
   if truthy windows then
     (* Legacy v2 structure *)
     for_each EXPECTED_KINETICS (fun entry =>
       let key := fst entry in
       let expected := snd entry in
       actual <- lift (get windows key VNone) ;;
       if is_None actual then
         append [Text "temporal_phases.yaml missing subacute.key_biomarker_windows.";
                 Str (VStr key)]
       else if py_ne actual expected then
         append [Text "Temporal kinetics mismatch for "; Str (VStr key); Text ": ";
                 Repr actual; Text " != "; Repr expected]
       else ret tt)
   else
     (* v3 structure with analyte-specific clearance blocks *)
     clearance <- lift (get subacute "biomarker_clearance_kinetics" empty_dict) ;;
     gfap_range <- lift (blk <- get clearance "gfap" empty_dict ;;
                         get blk "half_life_hours" VNone)%result ;;
     uchl1_range <- lift (blk <- get clearance "uchl1" empty_dict ;;
                          get blk "half_life_hours" VNone)%result ;;
     (if is_None gfap_range then
        append [Text "temporal_phases.yaml missing subacute.biomarker_clearance_kinetics.gfap.half_life_hours"]
      else
        expected <- lift (subscript EXPECTED_KINETICS "gfap_clearance_half_life_range_hours") ;;
        if py_ne gfap_range expected then
          append [Text "Temporal kinetics mismatch for gfap half-life range: ";
                  Repr gfap_range; Text " != "; Repr expected]
        else ret tt) ;;
     (if is_None uchl1_range then
        append [Text "temporal_phases.yaml missing subacute.biomarker_clearance_kinetics.uchl1.half_life_hours"]
      else
        expected <- lift (subscript EXPECTED_KINETICS "uchl1_clearance_half_life_range_hours") ;;
        if py_ne uchl1_range expected then
          append [Text "Temporal kinetics mismatch for uchl1 half-life range: ";
                  Repr uchl1_range; Text " != "; Repr expected]
        else ret tt))%M.

(** *** Rule 4 *)

Definition validate_temporal_thresholds (temporal : value) : M unit :=
  (kinetics <- lift (get temporal "biomarker_kinetics" empty_dict) ;;
   gfap_threshold <- lift (a <- get kinetics "gfap" empty_dict ;;
                           blk <- get a "ct_decision_threshold" empty_dict ;;
                           get blk "value" VNone)%result ;;
   uchl1_threshold <- lift (a <- get kinetics "uchl1" empty_dict ;;
                            blk <- get a "ct_decision_threshold" empty_dict ;;
                            get blk "value" VNone)%result ;;
   (if is_None gfap_threshold then
      append [Text "temporal_phases.yaml missing biomarker_kinetics.gfap.ct_decision_threshold.value"]
    else
      expected <- lift (subscript EXPECTED_THRESHOLDS "gfap_pg_ml") ;;
      close <- lift (nearly_equal gfap_threshold expected default_tol) ;;
      if negb close then
        append [Text "Temporal GFAP threshold mismatch: ";
                Str gfap_threshold; Text " != "; Str expected]
      else ret tt) ;;
   (if is_None uchl1_threshold then
      append [Text "temporal_phases.yaml missing biomarker_kinetics.uchl1.ct_decision_threshold.value"]
    else
      expected <- lift (subscript EXPECTED_THRESHOLDS "uchl1_pg_ml") ;;
      close <- lift (nearly_equal uchl1_threshold expected default_tol) ;;
      if negb close then
        append [Text "Temporal UCH-L1 threshold mismatch: ";
                Str uchl1_threshold; Text " != "; Str expected]
      else ret tt))%M.

(** *** Rule 5 *)

(** The comprehension [[payload.get("id") for payload in ... if
    isinstance(payload, dict) and payload.get("id")]]. *)
Fixpoint declared_ids (payloads : list value) : result (list value) :=
  match payloads with
  | [] => Ok []
  | payload :: rest =>
      if is_dict payload then
        (id <- get payload "id" VNone ;;
         if truthy id then
           (id' <- get payload "id" VNone ;;
            ids <- declared_ids rest ;;
            Ok (id' :: ids))
         else declared_ids rest)%result
      else declared_ids rest
  end.

Definition validate_temporal_phase_ids (temporal : value) : M unit :=
  (canonical <- lift (contract <- get temporal "schema_contract" empty_dict ;;
                      get contract "canonical_phase_ids" empty_list)%result ;;
   phase_blocks <- lift (get temporal "phases" empty_dict) ;;
   actual_ids <- lift (payloads <- values phase_blocks ;;
                       declared_ids payloads)%result ;;
   missing <- lift (declared <- py_set canonical ;;
                    actual <- py_set (VList actual_ids) ;;
                    sorted (set_diff declared actual))%result ;;
   if truthy (VList missing) then
     append [Text "temporal_phases.yaml missing phase IDs declared in schema_contract: ";
             Str (VList missing)]
   else ret tt)%M.

(** *** Rule 6 *)

(** The inner loop: [used_phase_ids.update(cde.get("temporal_phases", []))]. *)
Fixpoint update_from_cdes (used : list value) (cdes : list value) : result (list value) :=
  match cdes with
  | [] => Ok used
  | cde :: rest =>
      (phases <- get cde "temporal_phases" empty_list ;;
       used' <- set_update used phases ;;
       update_from_cdes used' rest)%result
  end.

(** The outer loop over the two sections. *)
Fixpoint update_from_sections (imaging : value) (used : list value)
    (sections : list string) : result (list value) :=
  match sections with
  | [] => Ok used
  | section :: rest =>
      (cdes <- get imaging section empty_list ;;
       items <- iter cdes ;;
       used' <- update_from_cdes used items ;;
       update_from_sections imaging used' rest)%result
  end.

Definition validate_phase_alignment (temporal imaging : value) : M unit :=
  (temporal_ids <- lift (contract <- get temporal "schema_contract" empty_dict ;;
                         get contract "canonical_phase_ids" empty_list)%result ;;
   imaging_ids <- lift (contract <- get imaging "schema_contract" empty_dict ;;
                        get contract "canonical_phase_ids" empty_list)%result ;;
   (if py_ne temporal_ids imaging_ids then
      append [Text "Canonical phase ID mismatch between temporal_phases.yaml and imaging_cdes.yaml"]
    else ret tt) ;;
   valid_phase_ids <- lift (py_set temporal_ids) ;;
   used_phase_ids <- lift (update_from_sections imaging []
                             ["core_cdes"; "supplementary_cdes"]) ;;
   unknown <- lift (sorted (set_diff used_phase_ids valid_phase_ids)) ;;
   if truthy (VList unknown) then
     append [Text "imaging_cdes.yaml references unknown temporal phase IDs: ";
             Str (VList unknown)]
   else ret tt)%M.

(** *** Rule 7 *)

(** The comprehension [[cde.get(k) for cde in items]]. *)
Fixpoint get_each (items : list value) (k : string) : result (list value) :=
  match items with
  | [] => Ok []
  | cde :: rest =>
      (v <- get cde k VNone ;;
       vs <- get_each rest k ;;
       Ok (v :: vs))%result
  end.

Definition validate_tapvi_and_counts (imaging : value) : M unit :=
  (core <- lift (get imaging "core_cdes" empty_list) ;;
   supplementary <- lift (get imaging "supplementary_cdes" empty_list) ;;
   n_core <- lift (len core) ;;
   (if negb (n_core =? 9) then
      append [Text "Expected 9 core CDEs, found "; Str (VInt n_core)]
    else ret tt) ;;
   n_supplementary <- lift (len supplementary) ;;
   (if negb (n_supplementary =? 18) then
      append [Text "Expected 18 supplementary CDEs, found "; Str (VInt n_supplementary)]
    else ret tt) ;;
   ids <- lift (items <- iter supplementary ;; get_each items "id")%result ;;
   (if negb (list_contains ids (VStr "tapvi")) then
      append [Text "imaging_cdes.yaml missing supplementary CDE id 'tapvi'"]
    else ret tt) ;;
   (if list_contains ids (VStr "tamvi") then
      append [Text "imaging_cdes.yaml still contains deprecated id 'tamvi'"]
    else ret tt))%M.

(** *** Rule 8 *)

Definition modules_requiring_mappings : list string :=
  [ "cbim_framework"; "clinical_entities"; "imaging_cdes"; "provenance";
    "implementation_science" ].

Definition required_template_keys : list value :=
  [ VStr "radlex_id"; VStr "dicom_sr_code"; VStr "fhir_observation_code";
    VStr "omop_concept_id" ].

Definition validate_mapping_hooks (files : list (string * value)) : M unit :=
  (for_each modules_requiring_mappings (fun name =>
     contract <- lift (module <- subscript files name ;;
                       get module "schema_contract" empty_dict)%result ;;
     flag <- lift (get contract "mapping_fields_optional" VNone) ;;
     if negb (truthy flag) then
       append [Str (VStr name); Text ".yaml missing schema_contract.mapping_fields_optional"]
     else ret tt) ;;
   hooks <- lift (module <- subscript files "imaging_cdes" ;;
                  get module "standards_mapping_hooks" empty_dict)%result ;;
   template <- lift (get hooks "default_mapping_template" empty_dict) ;;
   missing <- lift (ks <- keys template ;;
                    present <- set_update_list [] ks ;;
                    sorted (set_diff required_template_keys present))%result ;;
   if truthy (VList missing) then
     append [Text "imaging_cdes.yaml standards_mapping_hooks.default_mapping_template missing keys: ";
             Str (VList missing)]
   else ret tt)%M.

(** ** The orchestrator *)

(** What the script finds on disk for one YAML file: no file; a file
    [yaml.safe_load] rejects with a [YAMLError]; a tree; or a file whose
    opening or reading raises another exception (bytes that are no UTF-8
    text, a file that cannot be read), which [main] does not catch. *)
Inductive file_state : Type :=
| Missing
| Unparsable (exc : string)
| Loaded (content : value)
| Fails (e : exn).

Inductive path_elem : Type :=
| Key (s : string)
| Index (n : Z).

(** What [jsonschema.validate] does with an instance and a schema: it
    returns, raises a [ValidationError], or raises something else. *)
Inductive validation : Type :=
| Valid
| ValidationError (absolute_path : list path_elem) (msg : string)
| OtherError (e : exn).

Record environment : Type := {
  (** [args.skip_schema] *)
  skip_schema : bool;
  (** the [jsonschema] module, [None] when the import failed *)
  jsonschema : option (value -> value -> validation);
  (** the YAML files of [ONTOLOGY_DIR], by file name *)
  yaml_file : string -> file_state;
  (** [schema.json]: absent, or what reading and [json.loads] give *)
  schema_json : option (result value)
}.

Definition nonempty {A} (l : list A) : bool :=
  match l with [] => false | _ => true end.

(** [str(p)] for an element of [exc.absolute_path]. *)
Definition path_str (p : path_elem) : string :=
  match p with
  | Key s => s
  | Index n => NilZero.string_of_int (Z.to_int n)
  end.

Definition validate_schema (lib : option (value -> value -> validation))
    (module_name : string) (data schema : value) : M unit :=
  match lib with
  | None => ret tt
  | Some validate =>
      (module_schema <- lift (dialect <- get schema "$schema" VNone ;;
                              defs <- get schema "$defs" empty_dict ;;
                              Ok (VDict [ ("$schema", dialect);
                                          ("$ref", VStr ("#/$defs/" ++ module_name)%string);
                                          ("$defs", defs) ]))%result ;;
       match validate data module_schema with
       | Valid => ret tt
       | ValidationError absolute_path msg =>
           let path := String.concat "/" (map path_str absolute_path) in
           let prefix := [Str (VStr module_name); Text " schema validation failed"] in
           let prefix :=
             if truthy (VStr path)
             then prefix ++ [Text " at '"; Str (VStr path); Text "'"]
             else prefix in
           append (prefix ++ [Text ": "; Str (VStr msg)])
       | OtherError e => lift (Raise e)
       end)%M
  end.

(** The loading loop over [YAML_FILES.items()]. *)
Fixpoint load_modules (env : environment) (files : list (string * string))
    (loaded : list (string * value)) (errors : list message)
    : result (list (string * value) * list message) :=
  match files with
  | [] => Ok (loaded, errors)
  | (module_name, filename) :: rest =>
      match yaml_file env filename with
      | Missing =>
          load_modules env rest loaded
            (errors ++ [[Text "Missing required ontology file: "; Str (VStr filename)]])
      | Unparsable exc =>
          load_modules env rest loaded
            (errors ++ [[Text "YAML parse error in "; Str (VStr filename);
                          Text ": "; Text exc]])
      | Loaded content =>
          load_modules env rest (loaded ++ [(module_name, content)]) errors
      | Fails e => Raise e
      end
  end.

(** The loop over [loaded.items()] of the schema step. *)
Fixpoint validate_modules (env : environment) (schema schema_defs : value)
    (modules : list (string * value)) (warnings errors : list message)
    : result (list message * list message) :=
  match modules with
  | [] => Ok (warnings, errors)
  | (module_name, data) :: rest =>
      (known <- contains schema_defs module_name ;;
       if negb known then
         validate_modules env schema schema_defs rest
           (warnings ++ [[Text "schema.json has no $defs entry for "; Str (VStr module_name);
                          Text "; skipping schema validation for this module"]])
           errors
       else
         errors' <- run (validate_schema (jsonschema env) module_name data schema) errors ;;
         validate_modules env schema schema_defs rest warnings errors')%result
  end.

(** Lines 340 to 355 of [main]. *)
Definition schema_step (env : environment) (loaded : list (string * value))
    (warnings errors : list message) : result (list message * list message) :=
  if negb (skip_schema env) then
    match jsonschema env with
    | None =>
        Ok (warnings ++ [[Text "jsonschema package not installed; skipping schema validation"]],
            errors)
    | Some _ =>
        match schema_json env with
        | None => Ok (warnings, errors ++ [[Text "schema.json not found"]])
        | Some parsed =>
            (schema <- parsed ;;
             schema_defs <- get schema "$defs" empty_dict ;;
             validate_modules env schema schema_defs loaded warnings errors)%result
        end
    end
  else Ok (warnings, errors).

(** Lines 357 to 364 of [main]: the eight rules, one after the other. *)
Definition consistency_rules (loaded : list (string * value)) : M unit :=
  (cbim <- lift (subscript loaded "cbim_framework") ;;
   provenance <- lift (subscript loaded "provenance") ;;
   validate_threshold_consistency cbim provenance ;;
   provenance <- lift (subscript loaded "provenance") ;;
   validate_provenance_applicability provenance ;;
   temporal <- lift (subscript loaded "temporal_phases") ;;
   validate_temporal_kinetics temporal ;;
   temporal <- lift (subscript loaded "temporal_phases") ;;
   validate_temporal_thresholds temporal ;;
   temporal <- lift (subscript loaded "temporal_phases") ;;
   validate_temporal_phase_ids temporal ;;
   temporal <- lift (subscript loaded "temporal_phases") ;;
   imaging <- lift (subscript loaded "imaging_cdes") ;;
   validate_phase_alignment temporal imaging ;;
   imaging <- lift (subscript loaded "imaging_cdes") ;;
   validate_tapvi_and_counts imaging ;;
   validate_mapping_hooks loaded)%M.

(** [print(f"[ERROR] {item}")] and its like: a printed line. *)
Definition print_tagged (tag : string) (item : message) : message := Text tag :: item.

Definition OK_LINES : list message :=
  [ [Text "[OK] Ontology validation passed"];
    [Text "[OK] Threshold constants, kinetics, TAPVI terminology, and phase alignment are consistent"] ].

(** Lines 366 to 377 of [main]: what is printed, and the return code. *)
Definition report (warnings errors : list message) : list message * Z :=
  let printed := map (print_tagged "[WARN] ") warnings in
  if nonempty errors
  then (printed ++ map (print_tagged "[ERROR] ") errors, 1)
  else (printed ++ OK_LINES, 0).

(** [main]: the lines printed and the code returned, unless an exception
    escapes. *)
Definition main (env : environment) : result (list message * Z) :=
  (loading <- load_modules env YAML_FILES [] [] ;;
   let '(loaded, errors) := loading in
   if nonempty errors then Ok (map (print_tagged "[ERROR] ") errors, 1)
   else
     checked <- schema_step env loaded [] errors ;;
     let '(warnings, errors) := checked in
     errors <- run (consistency_rules loaded) errors ;;
     Ok (report warnings errors))%result.

End Validator.

(** * Example documents *)

(** A stand-in for [float] on strings, for documents where no string is
    converted. *)
Definition no_float (_ : string) : result float64 := Raise ValueError.

Definition variable (id : string) (ct_threshold : value) : value :=
  VDict [("id", VStr id); ("ct_threshold", ct_threshold)].

Definition framework (gfap uchl1 : value) : value :=
  VDict [ ("schema_contract", VDict [("mapping_fields_optional", VBool true)]);
          ("channels",
           VDict [("biomarker",
                   VDict [("variables",
                           VList [ variable "gfap_pg_ml" gfap;
                                   variable "uchl1_pg_ml" uchl1 ])])]) ].

Definition provenance_block (v : value) : value :=
  VDict [ ("value", v); ("applies_to", VList [VStr "adult"; VStr "mild_tbi"]) ].

Definition good_provenance : value :=
  VDict [ ("schema_contract", VDict [("mapping_fields_optional", VBool true)]);
          ("threshold_provenance",
           VDict [ ("gfap_ct_threshold", provenance_block (VFloat f30));
                   ("uchl1_ct_threshold", provenance_block (VFloat f360)) ]) ].

Definition good_framework : value := framework (VFloat f30) (VFloat f360).

(** The framework module with a GFAP threshold of 29.5. *)
Definition framework_29_5 : value := framework (VFloat f29_5) (VFloat f360).

Definition phase_ids : value :=
  VList [VStr "hyperacute"; VStr "acute"; VStr "subacute"].

Definition reordered_phase_ids : value :=
  VList [VStr "hyperacute"; VStr "subacute"; VStr "acute"].

Definition phase (id : string) (fields : list (string * value)) : string * value :=
  (id, VDict (("id", VStr id) :: fields)).

Definition decision_threshold (v : value) : value :=
  VDict [("ct_decision_threshold", VDict [("value", v)])].

Definition current_kinetics : value :=
  VDict [ ("gfap", VDict [("half_life_hours", VList [VInt 24; VInt 36])]);
          ("uchl1", VDict [("half_life_hours", VList [VInt 7; VInt 9])]) ].

Definition temporal (subacute_fields : list (string * value)) : value :=
  VDict [ ("schema_contract", VDict [("canonical_phase_ids", phase_ids)]);
          ("phases",
           VDict [ phase "hyperacute" []; phase "acute" [];
                   phase "subacute" subacute_fields ]);
          ("biomarker_kinetics",
           VDict [ ("gfap", decision_threshold (VFloat f30));
                   ("uchl1", decision_threshold (VFloat f360)) ]) ].

Definition good_temporal : value :=
  temporal [("biomarker_clearance_kinetics", current_kinetics)].

(** The legacy shape, with a current-shape container that is wrong. *)
Definition legacy_windows : list (string * value) :=
  [ ("gfap_clearance_half_life_hours", VInt 24);
    ("gfap_clearance_half_life_range_hours", VList [VInt 24; VInt 36]);
    ("uchl1_clearance_half_life_hours", VInt 8);
    ("uchl1_clearance_half_life_range_hours", VList [VInt 7; VInt 9]) ].

Definition legacy_temporal : value :=
  temporal [ ("key_biomarker_windows", VDict legacy_windows);
             ("biomarker_clearance_kinetics", VStr "see key_biomarker_windows") ].

Definition cde (id : string) (phases : list string) : value :=
  VDict [("id", VStr id); ("temporal_phases", VList (map VStr phases))].

Definition nine_core : list value :=
  [ cde "core_1" ["hyperacute"]; cde "core_2" ["acute"]; cde "core_3" ["subacute"];
    cde "core_4" ["hyperacute"; "acute"]; cde "core_5" ["acute"; "subacute"];
    cde "core_6" []; cde "core_7" ["acute"]; cde "core_8" ["acute"];
    cde "core_9" ["hyperacute"; "acute"; "subacute"] ].

Definition seventeen_supplementary : list value :=
  [ cde "tapvi" ["acute"]; cde "supp_2" ["acute"]; cde "supp_3" ["acute"];
    cde "supp_4" ["subacute"]; cde "supp_5" ["acute"]; cde "supp_6" ["acute"];
    cde "supp_7" ["hyperacute"]; cde "supp_8" ["acute"]; cde "supp_9" ["acute"];
    cde "supp_10" ["acute"]; cde "supp_11" []; cde "supp_12" ["acute"];
    cde "supp_13" ["subacute"]; cde "supp_14" ["acute"]; cde "supp_15" ["acute"];
    cde "supp_16" ["acute"]; cde "supp_17" ["acute"] ].

Definition eighteen_supplementary : list value :=
  seventeen_supplementary ++ [cde "supp_18" ["subacute"]].

Definition imaging (canonical : value) (core supplementary : list value) : value :=
  VDict [ ("schema_contract",
           VDict [ ("mapping_fields_optional", VBool true);
                   ("canonical_phase_ids", canonical) ]);
          ("core_cdes", VList core);
          ("supplementary_cdes", VList supplementary);
          ("standards_mapping_hooks",
           VDict [("default_mapping_template",
                   VDict [ ("radlex_id", VNone); ("dicom_sr_code", VNone);
                           ("fhir_observation_code", VNone);
                           ("omop_concept_id", VNone) ])]) ].

Definition good_imaging : value := imaging phase_ids nine_core eighteen_supplementary.

(** One supplementary element short. *)
Definition short_imaging : value := imaging phase_ids nine_core seventeen_supplementary.

(** The canonical list in another order, and references to phases the
    temporal module does not declare. *)
Definition misaligned_imaging : value :=
  imaging reordered_phase_ids
    [cde "core_1" ["late"; "acute"]; cde "core_2" ["chronic"]]
    [cde "tapvi" ["chronic"; "subacute"]].

Definition contract_only : value :=
  VDict [("schema_contract", VDict [("mapping_fields_optional", VBool true)])].

(** A directory holding the given files and no other. *)
Definition directory (files : list (string * value)) (filename : string) : file_state :=
  match lookup filename files with
  | Some content => Loaded content
  | None => Missing
  end.

Definition good_files (imaging_cdes : value) : list (string * value) :=
  [ ("cbim_framework.yaml", good_framework);
    ("clinical_entities.yaml", contract_only);
    ("imaging_cdes.yaml", imaging_cdes);
    ("temporal_phases.yaml", good_temporal);
    ("provenance.yaml", good_provenance);
    ("implementation_science.yaml", contract_only);
    ("methodology_extraction.yaml", VDict []) ].

(** A consistent bundle, and no [jsonschema]. *)
Definition env_no_library : environment :=
  {| skip_schema := false;
     jsonschema := None;
     yaml_file := directory (good_files good_imaging);
     schema_json := None |}.

(** The same, run with [--skip-schema]. *)
Definition env_skip_schema : environment :=
  {| skip_schema := true;
     jsonschema := None;
     yaml_file := directory (good_files good_imaging);
     schema_json := None |}.

(** [jsonschema] is there, [schema.json] is not, and the imaging module is
    one supplementary element short. *)
Definition env_no_schema_file : environment :=
  {| skip_schema := false;
     jsonschema := Some (fun _ _ => Valid);
     yaml_file := directory (good_files short_imaging);
     schema_json := None |}.

(** The modules of the consistent bundle without the provenance module. *)
Definition loaded_without_provenance : list (string * value) :=
  [ ("cbim_framework", good_framework);
    ("clinical_entities", contract_only);
    ("imaging_cdes", good_imaging);
    ("temporal_phases", good_temporal);
    ("implementation_science", contract_only);
    ("methodology_extraction", VDict []) ].

(** The float next above 24. *)
Definition f24_next : float64 := S754_finite false 6755399441055745 (-48).

(** The subacute block of [legacy_temporal]. *)
Definition legacy_subacute : value :=
  snd (phase "subacute"
         [ ("key_biomarker_windows", VDict legacy_windows);
           ("biomarker_clearance_kinetics", VStr "see key_biomarker_windows") ]).

Definition seventeen_ids : list value :=
  map VStr [ "tapvi"; "supp_2"; "supp_3"; "supp_4"; "supp_5"; "supp_6"; "supp_7";
             "supp_8"; "supp_9"; "supp_10"; "supp_11"; "supp_12"; "supp_13";
             "supp_14"; "supp_15"; "supp_16"; "supp_17" ]%string.

(** Detail entries that declare nothing: one that is no mapping, one with an
    empty [id], one without [id]; and one the canonical list does not name. *)
Definition sparse_blocks : list (string * value) :=
  [ ("hyperacute", VDict [("id", VStr "hyperacute")]);
    ("subacute", VDict [("id", VStr "")]);
    ("chronic", VDict [("label", VStr "chronic")]);
    ("acute", VStr "acute");
    ("recovery", VDict [("id", VStr "recovery")]) ].

Definition sparse_temporal : value :=
  VDict [ ("schema_contract",
           VDict [("canonical_phase_ids",
                   VList (map VStr ["hyperacute"; "subacute"; "chronic"; "acute"]%string))]);
          ("phases", VDict sparse_blocks) ].



Definition good_loaded (imaging_cdes : value) : list (string * value) :=
  [ ("cbim_framework", good_framework);
    ("clinical_entities", contract_only);
    ("imaging_cdes", imaging_cdes);
    ("temporal_phases", good_temporal);
    ("provenance", good_provenance);
    ("implementation_science", contract_only);
    ("methodology_extraction", VDict []) ].

(** Variables where the analyte comes twice, after another one. *)
Definition duplicate_variables : list (list (string * value)) :=
  [ [("id", VStr "uchl1_pg_ml"); ("ct_threshold", VFloat f360)];
    [("id", VStr "gfap_pg_ml"); ("ct_threshold", VFloat f30)];
    [("id", VStr "gfap_pg_ml"); ("ct_threshold", VFloat f29_5)] ].

Definition framework_duplicate : value :=
  VDict [("channels",
          VDict [("biomarker",
                  VDict [("variables", VList (map VDict duplicate_variables))])])].

(** A GFAP block that lacks [mild_tbi], a UCH-L1 block without
    [applies_to]. *)
Definition partial_provenance : value :=
  VDict [("threshold_provenance",
          VDict [ ("gfap_ct_threshold",
                   VDict [ ("value", VFloat f30);
                           ("applies_to", VList [VStr "pediatric"; VStr "adult"]) ]);
                  ("uchl1_ct_threshold", VDict [("value", VFloat f360)]) ])].

(** The consistent bundle where the clinical entities have no schema
    contract and the mapping template has two of the four keys. *)
Definition sparse_hooks_imaging : value :=
  VDict [ ("schema_contract", VDict [("mapping_fields_optional", VBool true)]);
          ("standards_mapping_hooks",
           VDict [("default_mapping_template",
                   VDict [ ("omop_concept_id", VNone); ("radlex_id", VNone) ])]) ].

Definition loaded_sparse_hooks : list (string * value) :=
  [ ("cbim_framework", good_framework);
    ("clinical_entities", VDict []);
    ("imaging_cdes", sparse_hooks_imaging);
    ("temporal_phases", good_temporal);
    ("provenance", good_provenance);
    ("implementation_science", contract_only) ].

(** A [schema.json] with entries for two modules, and a validator that
    rejects what it is given for the imaging module. *)
Definition two_defs : list (string * value) :=
  [ ("imaging_cdes", VDict [("type", VStr "object")]);
    ("provenance", VDict [("type", VStr "object")]) ].

Definition two_defs_schema : list (string * value) := [("$defs", VDict two_defs)].

Definition rejects_imaging (instance schema : value) : validation :=
  match schema with
  | VDict (_ :: (_, ref) :: _) =>
      if py_eq ref (VStr "#/$defs/imaging_cdes")
      then ValidationError [Key "core_cdes"; Index 0; Key "id"] "'id' is a required property"
      else Valid
  | _ => Valid
  end.

Definition env_two_defs : environment :=
  {| skip_schema := false;
     jsonschema := Some rejects_imaging;
     yaml_file := directory (good_files good_imaging);
     schema_json := Some (Ok (VDict two_defs_schema)) |}.

(** * Definitions for the statements *)

(** The lookup of rule 1 in the provenance module. *)
Definition provenance_value (provenance : value) (field : string) : result value :=
  (tp <- get provenance "threshold_provenance" empty_dict ;;
   blk <- get tp field empty_dict ;;
   get blk "value" VNone)%result.

(** What one of the four checks contributes: one missing-field error for an
    absent value, one mismatch error for a value that is not close to the
    expected one, nothing for a close one. *)
Definition threshold_diagnostics (v : value) (close : bool)
    (missing mismatch : message) : list message :=
  if is_None v then [missing] else if close then [] else [mismatch].

(** A looked-up value is absent, or compares with the expected constant. *)
Definition compared (float_of_str : string -> result float64)
    (v expected : value) (close : bool) : Prop :=
  v = VNone \/ nearly_equal float_of_str v expected default_tol = Ok close.

(** The subacute phase block rule 3 reads. *)
Definition subacute_block (temporal : value) : result value :=
  (phases <- get temporal "phases" empty_dict ;;
   get phases "subacute" empty_dict)%result.

(** The range of one analyte in the current shape. *)
Definition half_life_range (clearance : value) (analyte : string) : result value :=
  (blk <- get clearance analyte empty_dict ;;
   get blk "half_life_hours" VNone)%result.

(** What one legacy key contributes: a missing-key error, a mismatch error
    when the value is not equal to the expected one, or nothing. *)
Definition legacy_diagnostics (windows : list (string * value))
    (entry : string * value) : list message :=
  match lookup (fst entry) windows with
  | None | Some VNone =>
      [[Text "temporal_phases.yaml missing subacute.key_biomarker_windows.";
        Str (VStr (fst entry))]]
  | Some actual =>
      if py_eq actual (snd entry) then []
      else [[Text "Temporal kinetics mismatch for "; Str (VStr (fst entry)); Text ": ";
             Repr actual; Text " != "; Repr (snd entry)]]
  end.

(** What one analyte contributes in the current shape. *)
Definition range_diagnostics (range expected : value) (missing : message)
    (label : string) : list message :=
  if is_None range then [missing]
  else if py_eq range expected then []
  else [[Text label; Repr range; Text " != "; Repr expected]].

(** The order [<] of strings. *)
Definition str_lt (a b : string) : Prop := String.ltb a b = true.

(** Adding the strings [xs] one by one to a set of strings, as
    [set_update_list] does. *)
Fixpoint add_strs (acc xs : list string) : list string :=
  match xs with
  | [] => acc
  | x :: xs' => add_strs (if existsb (String.eqb x) acc then acc else acc ++ [x]) xs'
  end.

(** Insertion sort on strings: what [sorted] computes on a set of strings. *)
Fixpoint insert_str (x : string) (l : list string) : list string :=
  match l with
  | [] => [x]
  | y :: l' => if String.ltb x y then x :: y :: l' else y :: insert_str x l'
  end.

Fixpoint sort_strs (l : list string) : list string :=
  match l with
  | [] => []
  | x :: l' => insert_str x (sort_strs l')
  end.

(** The canonical list a module declares in its schema contract. *)
Definition canonical_phase_ids (module : value) : result value :=
  (contract <- get module "schema_contract" empty_dict ;;
   get contract "canonical_phase_ids" empty_list)%result.

(** A data element referencing the phase identifiers [refs]. *)
Definition references (cde : value) (refs : list string) : Prop :=
  get cde "temporal_phases" empty_list = Ok (VList (map VStr refs)).

(** The identifier a detail entry declares: its [id], when the entry is a
    mapping and the [id] is truthy. *)
Definition declared_id (payload : value) : list value :=
  match payload with
  | VDict kvs =>
      match lookup "id" kvs with
      | Some id => if truthy id then [id] else []
      | None => []
      end
  | _ => []
  end.

(** The error a file contributes to the loading step. *)
Definition load_failure (env : environment) (filename : string) : list message :=
  match yaml_file env filename with
  | Missing => [[Text "Missing required ontology file: "; Str (VStr filename)]]
  | Unparsable exc =>
      [[Text "YAML parse error in "; Str (VStr filename); Text ": "; Text exc]]
  | Loaded _ | Fails _ => []
  end.

(** The entry a file contributes to [loaded]. *)
(** [cde.get("id")] returns [id]. *)
Definition carries_id (cde id : value) : Prop := get cde "id" VNone = Ok id.

(** The exception [main] does not catch, when reading the file raises
    one. *)
Definition uncaught (env : environment) (filename : string) : option exn :=
  match yaml_file env filename with
  | Fails e => Some e
  | _ => None
  end.

(** The first such exception along the files, in the order of loading. *)
Fixpoint first_uncaught (env : environment) (files : list string) : option exn :=
  match files with
  | [] => None
  | filename :: rest =>
      match uncaught env filename with
      | Some e => Some e
      | None => first_uncaught env rest
      end
  end.

Definition loaded_entry (env : environment) (file : string * string)
    : list (string * value) :=
  match yaml_file env (snd file) with
  | Loaded content => [(fst file, content)]
  | _ => []
  end.

(** A computation that appends to the list it is given, and that the
    content of the list does not influence. *)
Definition framed {A} (m : M A) : Prop :=
  forall errors,
    m errors = match m [] with
               | Ok (a, new) => Ok (a, errors ++ new)
               | Raise e => Raise e
               end.

(** The schema contract of a module of the mapping. *)
Definition schema_contract (files : list (string * value)) (name : string) : result value :=
  (module <- subscript files name ;;
   get module "schema_contract" empty_dict)%result.

(** The default mapping template of the imaging module. *)
Definition mapping_template (files : list (string * value)) : result value :=
  (hooks <- (module <- subscript files "imaging_cdes" ;;
             get module "standards_mapping_hooks" empty_dict) ;;
   get hooks "default_mapping_template" empty_dict)%result.

(** The warnings and the errors a run that returns has accumulated: the
    load errors when there are some, and otherwise what the schema step left
    followed by what the rules appended. *)
Definition accumulated (float_of_str : string -> result float64) (env : environment)
    (warnings errors : list message) : Prop :=
  match load_modules env YAML_FILES [] [] with
  | Ok loading =>
      if nonempty (snd loading) then warnings = [] /\ errors = snd loading
      else
        exists schema_errors new,
          schema_step env (fst loading) [] [] = Ok (warnings, schema_errors)
          /\ run (consistency_rules float_of_str (fst loading)) [] = Ok new
          /\ errors = schema_errors ++ new
  | Raise _ => False
  end.

(** The modules the rules read: all but [methodology_extraction]. *)
Definition modules_read : list string :=
  [ "cbim_framework"; "provenance"; "temporal_phases"; "imaging_cdes";
    "clinical_entities"; "implementation_science" ].

(** The list of biomarker variables [get_biomarker_threshold] walks. *)
Definition framework_variables (cbim : value) : result value :=
  (channels <- get cbim "channels" empty_dict ;;
   biomarker <- get channels "biomarker" empty_dict ;;
   get biomarker "variables" empty_list)%result.

(** The threshold a variable carries: [None] when it has none. *)
Definition ct_threshold (variable : list (string * value)) : value :=
  match lookup "ct_threshold" variable with
  | Some v => v
  | None => VNone
  end.

(** A variable whose [id] is not the analyte. *)
Definition other_id (analyte_id : string) (variable : list (string * value)) : Prop :=
  lookup "id" variable <> Some (VStr analyte_id).

(** The lookup of rule 4 in the temporal module. *)
Definition decision_value (temporal : value) (analyte : string) : result value :=
  (kinetics <- get temporal "biomarker_kinetics" empty_dict ;;
   a <- get kinetics analyte empty_dict ;;
   blk <- get a "ct_decision_threshold" empty_dict ;;
   get blk "value" VNone)%result.

(** The lookup of rule 2 in the provenance module. *)
Definition applies_to (provenance : value) (field : string) : result value :=
  (threshold_provenance <- get provenance "threshold_provenance" empty_dict ;;
   blk <- get threshold_provenance field empty_dict ;;
   get blk "applies_to" VNone)%result.

(** The contexts a block declares: none at all, or a list of names. *)
Definition declared_contexts (contexts : option (list string)) : value :=
  match contexts with
  | None => VNone
  | Some names => VList (map VStr names)
  end.

(** What rule 2 reports for one block: the field is missing, or the required
    contexts it does not declare, [adult] before [mild_tbi]. *)
Definition applicability_diagnostics (field : string)
    (contexts : option (list string)) : list message :=
  match contexts with
  | None =>
      [[Text "provenance.yaml missing threshold_provenance."; Str (VStr field);
        Text ".applies_to"]]
  | Some names =>
      let missing :=
        filter (fun c => negb (existsb (String.eqb c) names)) ["adult"; "mild_tbi"]%string in
      if nonempty missing then
        [[Text "provenance.yaml "; Str (VStr field);
          Text ".applies_to missing required contexts: "; Str (VList (map VStr missing))]]
      else []
  end.

(** The flag of rule 8 in a schema contract: absent counts as false. *)
Definition mapping_flag (contract : list (string * value)) : bool :=
  match lookup "mapping_fields_optional" contract with
  | Some flag => truthy flag
  | None => false
  end.

(** What rule 8 reports for one module, given the contract of each. *)
Definition flag_diagnostics (contracts : string -> list (string * value))
    (name : string) : list message :=
  if mapping_flag (contracts name) then []
  else [[Str (VStr name); Text ".yaml missing schema_contract.mapping_fields_optional"]].

(** The schema [validate_schema] hands to the library for one module. *)
Definition module_schema (schema : list (string * value)) (module_name : string) : value :=
  VDict [ ("$schema", match lookup "$schema" schema with Some v => v | None => VNone end);
          ("$ref", VStr ("#/$defs/" ++ module_name)%string);
          ("$defs", match lookup "$defs" schema with Some v => v | None => empty_dict end) ].

(** The error of a violation: the location is left out when the path is
    empty. *)
Definition violation_message (module_name : string) (absolute_path : list path_elem)
    (msg : string) : message :=
  let path := String.concat "/" (map path_str absolute_path) in
  if String.eqb path "" then
    [Str (VStr module_name); Text " schema validation failed"; Text ": "; Str (VStr msg)]
  else
    [Str (VStr module_name); Text " schema validation failed";
     Text " at '"; Str (VStr path); Text "'"; Text ": "; Str (VStr msg)].

Definition has_key {A} (k : string) (kvs : list (string * A)) : bool :=
  match lookup k kvs with Some _ => true | None => false end.

(** The warning of the schema step for a module, if any. *)
Definition schema_warnings (defs : list (string * value)) (entry : string * value)
    : list message :=
  if has_key (fst entry) defs then []
  else [[Text "schema.json has no $defs entry for "; Str (VStr (fst entry));
         Text "; skipping schema validation for this module"]].

(** The error of the schema step for a module, if any. *)
Definition schema_errors (validate : value -> value -> validation)
    (schema defs : list (string * value)) (entry : string * value) : list message :=
  if has_key (fst entry) defs then
    match validate (snd entry) (module_schema schema (fst entry)) with
    | ValidationError absolute_path msg =>
        [violation_message (fst entry) absolute_path msg]
    | _ => []
    end
  else [].

(** The schema contract of a module of the mapping, as a list of fields:
    empty when there is none. *)
Definition contract_of (files : list (string * value)) (name : string)
    : list (string * value) :=
  match lookup name files with
  | Some (VDict fields) =>
      match lookup "schema_contract" fields with
      | Some (VDict contract) => contract
      | _ => []
      end
  | _ => []
  end.

(** * Properties *)

(** ** Binary64 subtraction and comparison *)

Lemma feqb_finite_inv s1 m1 e1 s2 m2 e2 :
  feqb (S754_finite s1 m1 e1) (S754_finite s2 m2 e2) = true ->
  s1 = s2 /\ m1 = m2 /\ e1 = e2.
Proof.
  unfold feqb, SFeqb, SFcompare.
  destruct s1, s2; try discriminate;
    destruct (Z.compare e1 e2) eqn:He; try discriminate;
    apply Z.compare_eq in He; subst e2;
    destruct (Pos.compare_cont Eq m1 m2) eqn:Hm; try discriminate;
    apply Pos.compare_eq in Hm; subst; auto.
Qed.

Lemma fabs_binary_round s m e :
  fabs (binary_round prec emax s m e) = fabs (binary_round prec emax false m e).
Proof.
  unfold binary_round.
  destruct (shl_align m e _) as [mz ez].
  unfold binary_round_aux.
  destruct (shr_fexp prec emax (Z.pos mz) ez loc_Exact) as [mrs' e'].
  destruct (shr_fexp prec emax _ e' loc_Exact) as [mrs'' e''].
  destruct (shr_m mrs''); try reflexivity.
  destruct (e'' <=? emax - prec); reflexivity.
Qed.

Lemma fabs_binary_normalize_opp z e :
  fabs (binary_normalize prec emax (- z) e false) = fabs (binary_normalize prec emax z e false).
Proof.
  destruct z; simpl; try reflexivity.
  - apply fabs_binary_round.
  - symmetry. apply fabs_binary_round.
Qed.

Lemma fabs_fsub_comm x y : fabs (fsub x y) = fabs (fsub y x).
Proof.
  destruct x as [sx|sx| |sx mx ex], y as [sy|sy| |sy my ey];
    try (destruct sx, sy; reflexivity); try reflexivity.
  unfold fsub, SFsub.
  rewrite (Z.min_comm ey ex).
  rewrite <- fabs_binary_normalize_opp.
  f_equal. f_equal. lia.
Qed.

Lemma fsub_self_zero x y :
  is_finite x = true -> is_finite y = true -> feqb x y = true ->
  fabs (fsub x y) = f0.
Proof.
  destruct x as [sx|sx| |sx mx ex], y as [sy|sy| |sy my ey]; try discriminate; intros _ _ H.
  - destruct sx, sy; reflexivity.
  - destruct sy; discriminate.
  - destruct sx; discriminate.
  - apply feqb_finite_inv in H. destruct H as (-> & -> & ->).
    unfold fsub, SFsub. rewrite Z.sub_diag. reflexivity.
Qed.

Lemma fmul_zero_finite y : is_finite y = true -> fabs (fmul f0 y) = f0.
Proof. destruct y; try discriminate; reflexivity. Qed.

Lemma fleb_fabs_zero d tol :
  fleb f0 tol = true -> fleb (fabs d) f0 = true -> fleb (fabs d) tol = true.
Proof.
  destruct d as [s|s| |s m e]; simpl; intros Ht H; try discriminate; exact Ht.
Qed.

Lemma isclose_finite x y :
  is_finite x = true -> is_finite y = true ->
  isclose x y f0 default_tol = Ok (fleb (fabs (fsub x y)) default_tol).
Proof.
  intros Hx Hy. unfold isclose.
  change (fltb f0 f0 || fltb default_tol f0) with false. cbv iota.
  destruct (feqb x y) eqn:E.
  - rewrite (fsub_self_zero x y Hx Hy E). reflexivity.
  - replace (is_infinity x || is_infinity y) with false
      by (destruct x, y; try discriminate; reflexivity).
    rewrite !fmul_zero_finite by assumption.
    rewrite (fabs_fsub_comm y x).
    f_equal.
    destruct (fleb (fabs (fsub x y)) f0) eqn:Z.
    + simpl. symmetry. apply fleb_fabs_zero; [reflexivity | exact Z].
    + reflexivity.
Qed.

Lemma feqb_sym x y : feqb x y = feqb y x.
Proof.
  unfold feqb, SFeqb, SFcompare.
  destruct x as [sx|sx| |sx mx ex], y as [sy|sy| |sy my ey];
    try (destruct sx, sy; reflexivity); try (destruct sx; reflexivity);
    try (destruct sy; reflexivity); try reflexivity.
  destruct sx, sy; try reflexivity;
    rewrite (Z.compare_antisym ex ey);
    destruct (Z.compare ex ey); simpl; try reflexivity;
    change (Pos.compare_cont Eq my mx) with (Pos.compare my mx);
    change (Pos.compare_cont Eq mx my) with (Pos.compare mx my);
    rewrite (Pos.compare_antisym mx my);
    destruct (Pos.compare mx my); reflexivity.
Qed.

Lemma isclose_sym x y rel_tol abs_tol :
  isclose x y rel_tol abs_tol = isclose y x rel_tol abs_tol.
Proof.
  unfold isclose.
  rewrite (feqb_sym x y), (orb_comm (is_infinity x)), (fabs_fsub_comm y x).
  rewrite (orb_comm (fleb _ (fabs (fmul rel_tol y)))).
  reflexivity.
Qed.

Lemma isclose_right_finite x y :
  is_finite y = true ->
  isclose x y f0 default_tol = Ok (fleb (fabs (fsub x y)) default_tol).
Proof.
  intros Hy. destruct (is_finite x) eqn:Hx; [now apply isclose_finite|].
  destruct x as [sx|sx| |sx mx ex]; try discriminate;
    destruct y as [sy|sy| |sy my ey]; try discriminate;
    try destruct sx; try destruct sy; reflexivity.
Qed.

Lemma isclose_tolerance x y :
  is_finite x = true \/ is_finite y = true ->
  isclose x y f0 default_tol = Ok (fleb (fabs (fsub x y)) default_tol).
Proof.
  intros [Hx | Hy].
  - rewrite isclose_sym, fabs_fsub_comm. now apply isclose_right_finite.
  - now apply isclose_right_finite.
Qed.

(** Two equal infinities are close, although their difference is NaN: the
    one pair of operands whose answer is not that of the difference. *)
Example isclose_same_infinity :
  isclose (S754_infinity false) (S754_infinity false) f0 default_tol = Ok true
  /\ fleb (fabs (fsub (S754_infinity false) (S754_infinity false))) default_tol = false.
Proof. split; reflexivity. Qed.

(** ** Running a rule *)

Lemma bind_ok {A B} (m : M A) (k : A -> M B) errors a errors' :
  m errors = Ok (a, errors') -> bind m k errors = k a errors'.
Proof. intros H. unfold bind. rewrite H. reflexivity. Qed.

Lemma lift_ok {A} (r : result A) a errors :
  r = Ok a -> lift r errors = Ok (a, errors).
Proof. intros ->. reflexivity. Qed.

(** ** Rule 1 *)

Lemma threshold_check_step (float_of_str : string -> result float64)
    (v expected : value) (key : string) (close : bool)
    (missing : message) (mismatch : value -> message) (errors : list message) :
  subscript EXPECTED_THRESHOLDS key = Ok expected ->
  compared float_of_str v expected close ->
  (if is_None v then append missing
   else
     (expected <- lift (subscript EXPECTED_THRESHOLDS key) ;;
      close <- lift (nearly_equal float_of_str v expected default_tol) ;;
      if negb close then append (mismatch expected) else ret tt)%M) errors
  = Ok (tt, errors ++ threshold_diagnostics v close missing (mismatch expected)).
Proof.
  intros He [-> | Hc].
  - reflexivity.
  - unfold threshold_diagnostics.
    destruct (is_None v) eqn:Hn.
    + destruct v; discriminate.
    + unfold bind, lift. rewrite He, Hc.
      destruct close; simpl; [rewrite app_nil_r|]; reflexivity.
Qed.

(** C1. Rule 1 looks the two thresholds up in the framework module and in the
    provenance module, and then makes four checks, each on its own value:
    an absent value gives one error naming the field, a value that is not
    within tolerance of the constant (30.0 for GFAP, 360.0 for UCH-L1) gives
    one error naming the value and the constant, a value within tolerance
    gives nothing.  A framework GFAP threshold of 29.5 gives the one error
    naming 29.5 and 30.0. *)
Theorem threshold_consistency_four_checks (float_of_str : string -> result float64)
    (cbim provenance : value) (errors : list message)
    (v1 v2 v3 v4 : value) (c1 c2 c3 c4 : bool) :
  get_biomarker_threshold cbim "gfap_pg_ml" = Ok v1 ->
  get_biomarker_threshold cbim "uchl1_pg_ml" = Ok v2 ->
  provenance_value provenance "gfap_ct_threshold" = Ok v3 ->
  provenance_value provenance "uchl1_ct_threshold" = Ok v4 ->
  compared float_of_str v1 (VFloat f30) c1 ->
  compared float_of_str v2 (VFloat f360) c2 ->
  compared float_of_str v3 (VFloat f30) c3 ->
  compared float_of_str v4 (VFloat f360) c4 ->
  run (validate_threshold_consistency float_of_str cbim provenance) errors
  = Ok (errors
        ++ threshold_diagnostics v1 c1
             [Text "cbim_framework.yaml missing biomarker variable 'gfap_pg_ml' ct_threshold"]
             [Text "GFAP threshold mismatch in cbim_framework.yaml: ";
              Str v1; Text " != "; Str (VFloat f30)]
        ++ threshold_diagnostics v2 c2
             [Text "cbim_framework.yaml missing biomarker variable 'uchl1_pg_ml' ct_threshold"]
             [Text "UCH-L1 threshold mismatch in cbim_framework.yaml: ";
              Str v2; Text " != "; Str (VFloat f360)]
        ++ threshold_diagnostics v3 c3
             [Text "provenance.yaml missing threshold_provenance.gfap_ct_threshold.value"]
             [Text "GFAP threshold mismatch in provenance.yaml: ";
              Str v3; Text " != "; Str (VFloat f30)]
        ++ threshold_diagnostics v4 c4
             [Text "provenance.yaml missing threshold_provenance.uchl1_ct_threshold.value"]
             [Text "UCH-L1 threshold mismatch in provenance.yaml: ";
              Str v4; Text " != "; Str (VFloat f360)])
  /\ (v1 = VFloat f29_5 ->
      threshold_diagnostics v1 c1
        [Text "cbim_framework.yaml missing biomarker variable 'gfap_pg_ml' ct_threshold"]
        [Text "GFAP threshold mismatch in cbim_framework.yaml: ";
         Str v1; Text " != "; Str (VFloat f30)]
      = [[Text "GFAP threshold mismatch in cbim_framework.yaml: ";
          Str (VFloat f29_5); Text " != "; Str (VFloat f30)]]).
Proof.
  intros H1 H2 H3 H4 C1 C2 C3 C4. split.
  - unfold run, validate_threshold_consistency.
    rewrite (bind_ok _ _ errors v1 errors (lift_ok _ _ _ H1)).
    rewrite (bind_ok _ _ errors v2 errors (lift_ok _ _ _ H2)).
    rewrite (bind_ok _ _ errors v3 errors (lift_ok _ _ _ H3)).
    rewrite (bind_ok _ _ errors v4 errors (lift_ok _ _ _ H4)).
    rewrite (bind_ok _ _ _ tt _
               (threshold_check_step float_of_str v1 (VFloat f30) "gfap_pg_ml" c1 _
                  (fun expected => [Text "GFAP threshold mismatch in cbim_framework.yaml: ";
                                    Str v1; Text " != "; Str expected])
                  errors eq_refl C1)).
    rewrite (bind_ok _ _ _ tt _
               (threshold_check_step float_of_str v2 (VFloat f360) "uchl1_pg_ml" c2 _
                  (fun expected => [Text "UCH-L1 threshold mismatch in cbim_framework.yaml: ";
                                    Str v2; Text " != "; Str expected])
                  _ eq_refl C2)).
    rewrite (bind_ok _ _ _ tt _
               (threshold_check_step float_of_str v3 (VFloat f30) "gfap_pg_ml" c3 _
                  (fun expected => [Text "GFAP threshold mismatch in provenance.yaml: ";
                                    Str v3; Text " != "; Str expected])
                  _ eq_refl C3)).
    rewrite (threshold_check_step float_of_str v4 (VFloat f360) "uchl1_pg_ml" c4 _
               (fun expected => [Text "UCH-L1 threshold mismatch in provenance.yaml: ";
                                 Str v4; Text " != "; Str expected])
               _ eq_refl C4).
    rewrite <- !app_assoc. reflexivity.
  - intros ->. destruct C1 as [C1 | C1]; [discriminate|].
    unfold nearly_equal in C1. cbv in C1. injection C1 as <-. reflexivity.
Qed.

(** ** Rule 3 *)

Lemma for_each_diagnostics {A} (body : A -> M unit) (diag : A -> list message) :
  (forall x errors, body x errors = Ok (tt, errors ++ diag x)) ->
  forall xs errors, for_each xs body errors = Ok (tt, errors ++ flat_map diag xs).
Proof.
  intros Hbody xs. induction xs as [|x rest IH]; intros errors.
  - simpl. rewrite app_nil_r. reflexivity.
  - cbn [for_each flat_map]. unfold bind at 1.
    rewrite Hbody, IH, <- app_assoc. reflexivity.
Qed.

Lemma legacy_loop (windows : list (string * value)) (entries : list (string * value))
    (errors : list message) :
  for_each entries (fun entry =>
    let key := fst entry in
    let expected := snd entry in
    (actual <- lift (get (VDict windows) key VNone) ;;
     if is_None actual then
       append [Text "temporal_phases.yaml missing subacute.key_biomarker_windows.";
               Str (VStr key)]
     else if py_ne actual expected then
       append [Text "Temporal kinetics mismatch for "; Str (VStr key); Text ": ";
               Repr actual; Text " != "; Repr expected]
     else ret tt)%M) errors
  = Ok (tt, errors ++ flat_map (legacy_diagnostics windows) entries).
Proof.
  revert errors. apply for_each_diagnostics. intros [key expected] errors.
  unfold legacy_diagnostics, bind, lift, get, py_ne. cbn [fst snd].
  destruct (lookup key windows) as [actual|]; [|reflexivity].
  destruct actual; cbn [is_None]; try reflexivity;
    match goal with
    | |- context [py_eq ?a ?b] =>
        destruct (py_eq a b); cbn [negb]; unfold ret; rewrite ?app_nil_r; reflexivity
    end.
Qed.

Lemma range_check_step (range expected : value) (key : string) (missing : message)
    (label : string) (errors : list message) :
  subscript EXPECTED_KINETICS key = Ok expected ->
  (if is_None range then append missing
   else
     (expected <- lift (subscript EXPECTED_KINETICS key) ;;
      if py_ne range expected then
        append [Text label; Repr range; Text " != "; Repr expected]
      else ret tt)%M) errors
  = Ok (tt, errors ++ range_diagnostics range expected missing label).
Proof.
  intros He. unfold range_diagnostics, py_ne.
  destruct (is_None range); [reflexivity|].
  unfold bind, lift. rewrite He.
  destruct (py_eq range expected); cbn [negb]; unfold ret; rewrite ?app_nil_r; reflexivity.
Qed.

(** C2. Rule 3 decides once which shape the subacute block has.  With a
    non-empty [key_biomarker_windows] mapping it checks the four legacy keys
    and nothing else: each contributes a missing-key error, or a mismatch
    error when [==] fails, whatever [biomarker_clearance_kinetics] holds;
    when the four values are there and equal the expected ones, nothing is
    reported.  With the container absent or empty it checks the two
    half-life ranges of the current shape and nothing else.  The comparison
    is [==], not the tolerance: the float next above 24 is within tolerance
    of 24 and is not equal to it. *)
Theorem temporal_kinetics_shape (float_of_str : string -> result float64)
    (temporal subacute : value) (errors : list message) :
  subacute_block temporal = Ok subacute ->
  (forall windows,
     get subacute "key_biomarker_windows" empty_dict = Ok (VDict windows) ->
     windows <> [] ->
     run (validate_temporal_kinetics temporal) errors
     = Ok (errors ++ flat_map (legacy_diagnostics windows) EXPECTED_KINETICS)
     /\ (Forall (fun entry => exists actual,
                   lookup (fst entry) windows = Some actual
                   /\ actual <> VNone
                   /\ py_eq actual (snd entry) = true) EXPECTED_KINETICS ->
         run (validate_temporal_kinetics temporal) errors = Ok errors))
  /\ (forall windows clearance gfap_range uchl1_range,
        get subacute "key_biomarker_windows" empty_dict = Ok windows ->
        truthy windows = false ->
        get subacute "biomarker_clearance_kinetics" empty_dict = Ok clearance ->
        half_life_range clearance "gfap" = Ok gfap_range ->
        half_life_range clearance "uchl1" = Ok uchl1_range ->
        run (validate_temporal_kinetics temporal) errors
        = Ok (errors
              ++ range_diagnostics gfap_range (VList [VInt 24; VInt 36])
                   [Text "temporal_phases.yaml missing subacute.biomarker_clearance_kinetics.gfap.half_life_hours"]
                   "Temporal kinetics mismatch for gfap half-life range: "
              ++ range_diagnostics uchl1_range (VList [VInt 7; VInt 9])
                   [Text "temporal_phases.yaml missing subacute.biomarker_clearance_kinetics.uchl1.half_life_hours"]
                   "Temporal kinetics mismatch for uchl1 half-life range: "))
  /\ (py_eq (VFloat f24_next) (VInt 24) = false
      /\ nearly_equal float_of_str (VFloat f24_next) (VInt 24) default_tol = Ok true).
Proof.
  intros Hs. split; [|split; [|split; reflexivity]].
  - intros windows Hw Hne.
    assert (Hrun : run (validate_temporal_kinetics temporal) errors
                   = Ok (errors ++ flat_map (legacy_diagnostics windows) EXPECTED_KINETICS)).
    { unfold run, validate_temporal_kinetics.
      rewrite (bind_ok _ _ errors subacute errors (lift_ok _ _ _ Hs)).
      rewrite (bind_ok _ _ errors _ errors (lift_ok _ _ _ Hw)).
      replace (truthy (VDict windows)) with true by (destruct windows; [congruence | reflexivity]).
      rewrite legacy_loop. reflexivity. }
    split; [exact Hrun|].
    intros Hall. rewrite Hrun. clear Hrun.
    replace (flat_map (legacy_diagnostics windows) EXPECTED_KINETICS) with (@nil message).
    + rewrite app_nil_r. reflexivity.
    + symmetry. induction Hall as [|entry rest (actual & Hl & Hn & He) _ IH]; [reflexivity|].
      cbn [flat_map]. rewrite IH, app_nil_r.
      unfold legacy_diagnostics. rewrite Hl.
      destruct actual; [congruence | rewrite He; reflexivity ..].
  - intros windows clearance g u Hw Ht Hc Hg Hu.
    unfold run, validate_temporal_kinetics.
    rewrite (bind_ok _ _ errors subacute errors (lift_ok _ _ _ Hs)).
    rewrite (bind_ok _ _ errors _ errors (lift_ok _ _ _ Hw)).
    rewrite Ht.
    rewrite (bind_ok _ _ errors _ errors (lift_ok _ _ _ Hc)).
    rewrite (bind_ok _ _ errors _ errors (lift_ok _ _ _ Hg)).
    rewrite (bind_ok _ _ errors _ errors (lift_ok _ _ _ Hu)).
    rewrite (bind_ok _ _ _ tt _
               (range_check_step g _ "gfap_clearance_half_life_range_hours" _
                  "Temporal kinetics mismatch for gfap half-life range: " errors eq_refl)).
    rewrite (range_check_step u _ "uchl1_clearance_half_life_range_hours" _
               "Temporal kinetics mismatch for uchl1 half-life range: " _ eq_refl).
    rewrite <- app_assoc. reflexivity.
Qed.

(** ** Sets of identifiers *)

Lemma str_lt_iff a b : str_lt a b <-> String_as_OT.lt a b.
Proof.
  unfold str_lt, String.ltb. rewrite <- String_as_OT.cmp_lt.
  unfold String_as_OT.cmp. destruct (String.compare a b); split; congruence.
Qed.

Lemma str_lt_trans a b c : str_lt a b -> str_lt b c -> str_lt a c.
Proof. rewrite !str_lt_iff. apply String_as_OT.lt_trans. Qed.

Lemma str_lt_total a b : a <> b -> String.ltb a b = false -> str_lt b a.
Proof.
  unfold str_lt, String.ltb. intros Hne.
  rewrite (String.compare_antisym b a).
  destruct (String.compare a b) eqn:E; simpl; try congruence.
  apply String.compare_eq_iff in E. contradiction.
Qed.

Lemma py_eq_str_r (e : value) (s : string) : py_eq e (VStr s) = true <-> e = VStr s.
Proof.
  destruct e; simpl; split; try congruence.
  - intros H. apply String.eqb_eq in H. congruence.
  - intros H. injection H as ->. apply String.eqb_refl.
Qed.

Lemma set_mem_str (s : string) (l : list value) :
  set_mem (VStr s) l = true <-> In (VStr s) l.
Proof.
  unfold set_mem. rewrite existsb_exists. split.
  - intros (e & Hin & He). apply py_eq_str_r in He. subst. exact Hin.
  - intros Hin. exists (VStr s). split; [exact Hin | now apply py_eq_str_r].
Qed.

Lemma In_VStr_map (s : string) (l : list string) : In (VStr s) (map VStr l) <-> In s l.
Proof.
  rewrite in_map_iff. split.
  - intros (x & E & Hin). congruence.
  - intros Hin. exists s. auto.
Qed.

(** Adding the elements of [xs] one by one to the set [acc]. *)
Lemma set_update_list_In (xs acc acc' : list value) :
  set_update_list acc xs = Ok acc' ->
  forall s, In (VStr s) acc' <-> In (VStr s) acc \/ In (VStr s) xs.
Proof.
  revert acc. induction xs as [|x xs IH]; intros acc H s.
  - simpl in H. injection H as <-. simpl. tauto.
  - simpl in H. unfold set_add in H.
    destruct (hashable x); [|discriminate]. simpl in H.
    apply IH with (s := s) in H. rewrite H. simpl.
    destruct (set_mem x acc) eqn:Hm.
    + split; [tauto|]. intros [Ha | [-> | Hx]]; auto.
      left. now apply set_mem_str.
    + rewrite in_app_iff. simpl. tauto.
Qed.

Lemma set_update_list_hashable (xs acc : list value) :
  Forall (fun x => hashable x = true) xs ->
  exists acc', set_update_list acc xs = Ok acc'.
Proof.
  intros H. revert acc. induction H as [|x xs Hx _ IH]; intros acc.
  - eexists. reflexivity.
  - simpl. unfold set_add. rewrite Hx. simpl. apply IH.
Qed.

Lemma existsb_eqb_In (x : string) (l : list string) :
  existsb (String.eqb x) l = true <-> In x l.
Proof.
  rewrite existsb_exists. split.
  - intros (y & Hin & E). apply String.eqb_eq in E. now subst.
  - intros Hin. exists x. split; [exact Hin | apply String.eqb_refl].
Qed.

Lemma set_mem_map_str (x : string) (l : list string) :
  set_mem (VStr x) (map VStr l) = existsb (String.eqb x) l.
Proof.
  unfold set_mem. induction l as [|y l IH]; [reflexivity|].
  simpl. rewrite IH, (String.eqb_sym y x). reflexivity.
Qed.

Lemma set_update_list_strs (xs acc : list string) :
  set_update_list (map VStr acc) (map VStr xs) = Ok (map VStr (add_strs acc xs)).
Proof.
  revert acc. induction xs as [|x xs IH]; intros acc; [reflexivity|].
  simpl. unfold set_add. simpl. rewrite set_mem_map_str.
  destruct (existsb (String.eqb x) acc).
  - apply IH.
  - rewrite <- IH, map_app. reflexivity.
Qed.

Lemma add_strs_In (xs acc : list string) (s : string) :
  In s (add_strs acc xs) <-> In s acc \/ In s xs.
Proof.
  revert acc. induction xs as [|x xs IH]; intros acc; simpl; [tauto|].
  rewrite IH. destruct (existsb (String.eqb x) acc) eqn:E.
  - apply existsb_eqb_In in E. split; [tauto|]. intros [H | [<- | H]]; auto.
  - rewrite in_app_iff. simpl. tauto.
Qed.

Lemma add_strs_NoDup (xs acc : list string) : NoDup acc -> NoDup (add_strs acc xs).
Proof.
  revert acc. induction xs as [|x xs IH]; intros acc Hnd; simpl; [exact Hnd|].
  apply IH. destruct (existsb (String.eqb x) acc) eqn:E; [exact Hnd|].
  apply NoDup_app; [exact Hnd | repeat constructor; auto |].
  intros a Ha [<- | []].
  apply existsb_eqb_In in Ha. congruence.
Qed.

Lemma add_strs_app (xs ys acc : list string) :
  add_strs (add_strs acc xs) ys = add_strs acc (xs ++ ys).
Proof.
  revert acc. induction xs as [|x xs IH]; intros acc; simpl; [reflexivity|]. apply IH.
Qed.

(** The difference of a set of strings and any set. *)
Lemma set_diff_strs (a : list string) (b : list value) :
  set_diff (map VStr a) b
  = map VStr (filter (fun s => negb (set_mem (VStr s) b)) a).
Proof.
  unfold set_diff. induction a as [|x a IH]; [reflexivity|].
  simpl. destruct (set_mem (VStr x) b); simpl; rewrite IH; reflexivity.
Qed.

(** ** [sorted] on strings *)

Lemma insert_sorted_strs (x : string) (l : list string) :
  insert_sorted (VStr x) (map VStr l) = Ok (map VStr (insert_str x l)).
Proof.
  induction l as [|y l IH]; [reflexivity|].
  simpl. destruct (String.ltb x y); [reflexivity|].
  rewrite IH. reflexivity.
Qed.

Lemma sorted_strs (l : list string) :
  sorted (map VStr l) = Ok (map VStr (sort_strs l)).
Proof.
  induction l as [|x l IH]; [reflexivity|].
  simpl. rewrite IH. simpl. apply insert_sorted_strs.
Qed.

Lemma insert_str_In (x s : string) (l : list string) :
  In s (insert_str x l) <-> s = x \/ In s l.
Proof.
  induction l as [|y l IH]; simpl.
  - intuition congruence.
  - destruct (String.ltb x y); simpl; [intuition congruence|].
    rewrite IH. intuition congruence.
Qed.

Lemma sort_strs_In (s : string) (l : list string) : In s (sort_strs l) <-> In s l.
Proof.
  induction l as [|x l IH]; simpl; [tauto|].
  rewrite insert_str_In, IH. intuition congruence.
Qed.

Lemma insert_str_sorted (x : string) (l : list string) :
  ~ In x l -> StronglySorted str_lt l -> StronglySorted str_lt (insert_str x l).
Proof.
  intros Hx Hs. induction Hs as [|y l Hs IH Hall]; simpl.
  - repeat constructor.
  - destruct (String.ltb x y) eqn:E.
    + constructor; [constructor; assumption|].
      constructor; [exact E|].
      rewrite Forall_forall in *. intros z Hz.
      apply str_lt_trans with y; [exact E | auto].
    + assert (Hyx : str_lt y x).
      { apply str_lt_total; [|exact E]. intros ->. apply Hx. now left. }
      constructor.
      * apply IH. intros Hin. apply Hx. now right.
      * rewrite Forall_forall in *. intros z Hz.
        apply insert_str_In in Hz. destruct Hz as [-> | Hz]; auto.
Qed.

Lemma sort_strs_sorted (l : list string) : NoDup l -> StronglySorted str_lt (sort_strs l).
Proof.
  induction 1 as [|x l Hx Hnd IH]; simpl; [constructor|].
  apply insert_str_sorted; [|exact IH].
  rewrite sort_strs_In. exact Hx.
Qed.

(** ** Rule 6 *)

Lemma py_eq_str_lists (a b : list string) :
  py_eq (VList (map VStr a)) (VList (map VStr b)) = true <-> a = b.
Proof.
  revert b. induction a as [|x a IH]; intros [|y b]; simpl; try (split; congruence).
  specialize (IH b). simpl in IH.
  rewrite andb_true_iff, String.eqb_eq, IH. split.
  - intros [-> ->]. reflexivity.
  - intros E. injection E as -> ->. auto.
Qed.

Lemma truthy_str_list (l : list string) : truthy (VList (map VStr l)) = nonempty l.
Proof. destruct l; reflexivity. Qed.

Lemma update_from_cdes_strs (cdes : list value) (refss : list (list string))
    (acc : list string) :
  Forall2 references cdes refss ->
  update_from_cdes (map VStr acc) cdes = Ok (map VStr (add_strs acc (List.concat refss))).
Proof.
  intros H. revert acc. induction H as [|cde refs cdes refss Hr _ IH]; intros acc.
  - reflexivity.
  - simpl. unfold references in Hr. rewrite Hr. simpl.
    unfold set_update. simpl. rewrite set_update_list_strs. simpl.
    rewrite IH, add_strs_app. reflexivity.
Qed.

(** C6. Rule 6 reports one alignment error when the canonical lists of the
    temporal and the imaging module differ, in whatever way, and none when
    they are the same list; and it reports, in one error, the sorted list
    without repetition of the identifiers that some core or supplementary
    element references and the temporal module does not declare, or nothing
    when there is no such identifier. *)
Theorem phase_alignment_errors (temporal imaging : value) (errors : list message)
    (temporal_ids imaging_ids : list string) (core supplementary : list value)
    (refss : list (list string)) :
  canonical_phase_ids temporal = Ok (VList (map VStr temporal_ids)) ->
  canonical_phase_ids imaging = Ok (VList (map VStr imaging_ids)) ->
  get imaging "core_cdes" empty_list = Ok (VList core) ->
  get imaging "supplementary_cdes" empty_list = Ok (VList supplementary) ->
  Forall2 references (core ++ supplementary) refss ->
  exists unknown : list string,
    run (validate_phase_alignment temporal imaging) errors
    = Ok (errors
          ++ (if list_eq_dec string_dec temporal_ids imaging_ids then []
              else [[Text "Canonical phase ID mismatch between temporal_phases.yaml and imaging_cdes.yaml"]])
          ++ (if nonempty unknown
              then [[Text "imaging_cdes.yaml references unknown temporal phase IDs: ";
                     Str (VList (map VStr unknown))]]
              else []))
    /\ StronglySorted str_lt unknown
    /\ (forall s, In s unknown <-> In s (List.concat refss) /\ ~ In s temporal_ids).
Proof.
  intros Ht Hi Hc Hs Hr.
  apply Forall2_app_inv_l in Hr. destruct Hr as (r1 & r2 & Hr1 & Hr2 & ->).
  set (valid := add_strs [] temporal_ids).
  set (used := add_strs [] (List.concat (r1 ++ r2))).
  exists (sort_strs (filter (fun s => negb (set_mem (VStr s) (map VStr valid))) used)).
  split; [|split].
  - unfold run, validate_phase_alignment.
    rewrite (bind_ok _ _ errors _ errors (lift_ok _ _ _ Ht)).
    rewrite (bind_ok _ _ errors _ errors (lift_ok _ _ _ Hi)).
    assert (Hv : py_set (VList (map VStr temporal_ids)) = Ok (map VStr valid)).
    { unfold py_set, set_update. simpl. apply (set_update_list_strs temporal_ids []). }
    assert (Hu : update_from_sections imaging [] ["core_cdes"; "supplementary_cdes"]
                 = Ok (map VStr used)).
    { simpl. rewrite Hc. simpl.
      pose proof (update_from_cdes_strs core r1 [] Hr1) as H1.
      cbn [map] in H1. rewrite H1. simpl.
      rewrite Hs. simpl.
      rewrite (update_from_cdes_strs supplementary r2 _ Hr2). simpl.
      unfold used. rewrite add_strs_app, List.concat_app. reflexivity. }
    assert (Hsorted : sorted (set_diff (map VStr used) (map VStr valid))
                      = Ok (map VStr (sort_strs
                              (filter (fun s => negb (set_mem (VStr s) (map VStr valid))) used)))).
    { rewrite set_diff_strs. apply sorted_strs. }
    unfold py_ne.
    destruct (list_eq_dec string_dec temporal_ids imaging_ids) as [E | E].
    + replace (py_eq (VList (map VStr temporal_ids)) (VList (map VStr imaging_ids))) with true
        by (symmetry; now apply py_eq_str_lists).
      cbn [negb]. unfold bind at 1. unfold ret at 1.
      rewrite (bind_ok _ _ errors _ errors (lift_ok _ _ _ Hv)).
      rewrite (bind_ok _ _ errors _ errors (lift_ok _ _ _ Hu)).
      rewrite (bind_ok _ _ errors _ errors (lift_ok _ _ _ Hsorted)).
      rewrite truthy_str_list.
      destruct (nonempty _); simpl; rewrite ?app_nil_r; reflexivity.
    + replace (py_eq (VList (map VStr temporal_ids)) (VList (map VStr imaging_ids))) with false
        by (symmetry; apply not_true_is_false; intros H; now apply py_eq_str_lists in H).
      cbn [negb]. unfold bind at 1. unfold append at 1.
      rewrite (bind_ok _ _ _ _ _ (lift_ok _ _ _ Hv)).
      rewrite (bind_ok _ _ _ _ _ (lift_ok _ _ _ Hu)).
      rewrite (bind_ok _ _ _ _ _ (lift_ok _ _ _ Hsorted)).
      rewrite truthy_str_list.
      destruct (nonempty _); simpl; rewrite <- ?app_assoc, ?app_nil_r; reflexivity.
  - apply sort_strs_sorted, NoDup_filter, add_strs_NoDup. constructor.
  - intros s. rewrite sort_strs_In, filter_In. unfold used, valid.
    rewrite add_strs_In, negb_true_iff, <- not_true_iff_false, set_mem_str,
      In_VStr_map, add_strs_In.
    simpl. tauto.
Qed.

(** ** Rule 7 *)

Lemma list_contains_str (ids : list value) (s : string) :
  list_contains ids (VStr s) = true <-> In (VStr s) ids.
Proof. apply set_mem_str. Qed.

Lemma bind_if_append (c : bool) (msg : message) (k : M unit) (errors : list message) :
  ((if c then append msg else ret tt) ;; k)%M errors
  = k (errors ++ (if c then [msg] else [])).
Proof. destruct c; unfold bind, append, ret; rewrite ?app_nil_r; reflexivity. Qed.

Lemma if_append (c : bool) (msg : message) (errors : list message) :
  (if c then append msg else ret tt) errors
  = Ok (tt, errors ++ (if c then [msg] else [])).
Proof. destruct c; unfold append, ret; rewrite ?app_nil_r; reflexivity. Qed.

Lemma get_each_ids (items ids : list value) :
  Forall2 carries_id items ids -> get_each items "id" = Ok ids.
Proof.
  induction 1 as [|cde id items ids Hid _ IH]; [reflexivity|].
  cbn [get_each]. unfold carries_id in Hid. rewrite Hid, IH. reflexivity.
Qed.

Lemma carried_ids (items ids : list value) (id : value) :
  Forall2 carries_id items ids ->
  In id ids <-> exists cde, In cde items /\ carries_id cde id.
Proof.
  induction 1 as [|cde id' items ids Hid _ IH]; cbn [In].
  - split; [tauto | intros (? & [] & _)].
  - rewrite IH. split.
    + intros [<- | (c & Hin & Hc)]; [exists cde | exists c]; auto.
    + intros (c & [<- | Hin] & Hc).
      * left. unfold carries_id in *. congruence.
      * right. exists c. auto.
Qed.

(** C7. Rule 7 makes four checks on the imaging module, each on its own: the
    number of core elements against 9 and of supplementary elements against
    18, each error giving the number found; the presence of the identifier
    [tapvi] among the supplementary ones; the absence of [tamvi].  The
    identifiers are what [get("id")] gives on the supplementary elements,
    one for each and in their order, and an identifier is among them when
    an element carries it.  With 9 core and 17 supplementary elements,
    [tapvi] among them and [tamvi] not, the supplementary count is the only
    error.  ([list_contains] is the test [in] of the source.) *)
Theorem tapvi_and_counts_checks (imaging core : value) (supplementary ids : list value)
    (n_core : Z) (errors : list message) :
  get imaging "core_cdes" empty_list = Ok core ->
  get imaging "supplementary_cdes" empty_list = Ok (VList supplementary) ->
  len core = Ok n_core ->
  Forall2 carries_id supplementary ids ->
  let n_supplementary := Z.of_nat (List.length supplementary) in
  run (validate_tapvi_and_counts imaging) errors
  = Ok (errors
        ++ (if negb (n_core =? 9)
            then [[Text "Expected 9 core CDEs, found "; Str (VInt n_core)]] else [])
        ++ (if negb (n_supplementary =? 18)
            then [[Text "Expected 18 supplementary CDEs, found "; Str (VInt n_supplementary)]]
            else [])
        ++ (if negb (list_contains ids (VStr "tapvi"))
            then [[Text "imaging_cdes.yaml missing supplementary CDE id 'tapvi'"]] else [])
        ++ (if list_contains ids (VStr "tamvi")
            then [[Text "imaging_cdes.yaml still contains deprecated id 'tamvi'"]] else []))
  /\ (n_core = 9 -> n_supplementary = 17 ->
      In (VStr "tapvi") ids -> ~ In (VStr "tamvi") ids ->
      run (validate_tapvi_and_counts imaging) errors
      = Ok (errors ++ [[Text "Expected 18 supplementary CDEs, found "; Str (VInt 17)]]))
  /\ (forall s, list_contains ids (VStr s) = true <-> In (VStr s) ids)
  /\ (forall s, list_contains ids (VStr s) = true
                <-> exists cde, In cde supplementary /\ get cde "id" VNone = Ok (VStr s))
  /\ (forall elements, core = VList elements -> n_core = Z.of_nat (List.length elements)).
Proof.
  intros Hc Hs Hn Hi n_supplementary.
  assert (Hrun : run (validate_tapvi_and_counts imaging) errors
    = Ok (errors
        ++ (if negb (n_core =? 9)
            then [[Text "Expected 9 core CDEs, found "; Str (VInt n_core)]] else [])
        ++ (if negb (n_supplementary =? 18)
            then [[Text "Expected 18 supplementary CDEs, found "; Str (VInt n_supplementary)]]
            else [])
        ++ (if negb (list_contains ids (VStr "tapvi"))
            then [[Text "imaging_cdes.yaml missing supplementary CDE id 'tapvi'"]] else [])
        ++ (if list_contains ids (VStr "tamvi")
            then [[Text "imaging_cdes.yaml still contains deprecated id 'tamvi'"]] else []))).
  { unfold run, validate_tapvi_and_counts.
    rewrite (bind_ok _ _ errors _ errors (lift_ok _ _ _ Hc)).
    rewrite (bind_ok _ _ errors _ errors (lift_ok _ _ _ Hs)).
    rewrite (bind_ok _ _ errors _ errors (lift_ok _ _ _ Hn)).
    rewrite bind_if_append.
    rewrite (bind_ok _ _ _ n_supplementary _ (lift_ok _ _ _ eq_refl)).
    rewrite bind_if_append.
    assert (Hids : (items <- iter (VList supplementary) ;; get_each items "id")%result = Ok ids)
      by exact (get_each_ids supplementary ids Hi).
    rewrite (bind_ok _ _ _ _ _ (lift_ok _ _ _ Hids)).
    rewrite bind_if_append, if_append, <- !app_assoc. reflexivity. }
  split; [exact Hrun|].
  split; [|split; [intros s; apply list_contains_str|split]].
  - intros -> E17 Htapvi Htamvi. rewrite Hrun, E17.
    apply list_contains_str in Htapvi. rewrite Htapvi.
    replace (list_contains ids (VStr "tamvi")) with false
      by (symmetry; apply not_true_is_false; now rewrite list_contains_str).
    reflexivity.
  - intros s. rewrite list_contains_str. apply (carried_ids supplementary ids _ Hi).
  - intros elements ->. cbn [len] in Hn. congruence.
Qed.

(** ** Rule 5 *)

Lemma declared_ids_flat_map (payloads : list value) :
  declared_ids payloads = Ok (flat_map declared_id payloads).
Proof.
  induction payloads as [|p rest IH]; [reflexivity|].
  cbn [declared_ids flat_map]. destruct p; cbn [is_dict declared_id]; try exact IH.
  unfold get. destruct (lookup "id" kvs) as [id|]; cbn [rbind truthy].
  - destruct (truthy id); [|exact IH]. rewrite IH. reflexivity.
  - exact IH.
Qed.

Lemma declared_id_str (payloads : list value) (s : string) :
  In (VStr s) (flat_map declared_id payloads)
  <-> exists kvs, In (VDict kvs) payloads /\ lookup "id" kvs = Some (VStr s) /\ s <> "".
Proof.
  rewrite in_flat_map. split.
  - intros (p & Hp & Hin). destruct p; try contradiction. simpl in Hin.
    destruct (lookup "id" kvs) as [id|] eqn:L; [|contradiction].
    destruct (truthy id) eqn:T; [|contradiction].
    destruct Hin as [-> | []].
    exists kvs. repeat split; auto.
    intros ->. discriminate.
  - intros (kvs & Hp & L & Hne). exists (VDict kvs). split; [exact Hp|].
    simpl. rewrite L. simpl.
    destruct (String.eqb s "") eqn:E; [apply String.eqb_eq in E; contradiction|].
    now left.
Qed.

(** C10. Rule 5 takes the declared identifiers from the detail entries that
    are mappings with a truthy [id], and from no other entry; it reports, in
    one error, the sorted list of the canonical identifiers that no such
    entry carries, and nothing otherwise.  Identifiers of detail entries
    that the canonical list does not name are never reported. *)
Theorem temporal_phase_ids_missing (temporal : value) (errors : list message)
    (canonical : list string) (blocks : list (string * value)) :
  canonical_phase_ids temporal = Ok (VList (map VStr canonical)) ->
  get temporal "phases" empty_dict = Ok (VDict blocks) ->
  (forall kvs id, In (VDict kvs) (map snd blocks) -> lookup "id" kvs = Some id ->
                  truthy id = true -> hashable id = true) ->
  exists missing : list string,
    run (validate_temporal_phase_ids temporal) errors
    = Ok (errors
          ++ (if nonempty missing
              then [[Text "temporal_phases.yaml missing phase IDs declared in schema_contract: ";
                     Str (VList (map VStr missing))]]
              else []))
    /\ StronglySorted str_lt missing
    /\ (forall s, In s missing
                  <-> In s canonical
                      /\ ~ exists kvs, In (VDict kvs) (map snd blocks)
                                       /\ lookup "id" kvs = Some (VStr s) /\ s <> "").
Proof.
  intros Hc Hp Hh.
  set (actual_ids := flat_map declared_id (map snd blocks)).
  assert (Hhash : Forall (fun x => hashable x = true) actual_ids).
  { apply Forall_forall. intros x Hx. apply in_flat_map in Hx.
    destruct Hx as (p & Hp' & Hin). destruct p; try contradiction. simpl in Hin.
    destruct (lookup "id" kvs) as [id|] eqn:L; [|contradiction].
    destruct (truthy id) eqn:T; [|contradiction].
    destruct Hin as [<- | []]. eapply Hh; eauto. }
  destruct (set_update_list_hashable actual_ids [] Hhash) as (actual & Hactual).
  set (declared := add_strs [] canonical).
  exists (sort_strs (filter (fun s => negb (set_mem (VStr s) actual)) declared)).
  split; [|split].
  - unfold run, validate_temporal_phase_ids.
    rewrite (bind_ok _ _ errors _ errors (lift_ok _ _ _ Hc)).
    rewrite (bind_ok _ _ errors _ errors (lift_ok _ _ _ Hp)).
    assert (Hids : (payloads <- values (VDict blocks) ;; declared_ids payloads)%result
                   = Ok actual_ids) by apply declared_ids_flat_map.
    rewrite (bind_ok _ _ errors _ errors (lift_ok _ _ _ Hids)).
    assert (Hmissing :
      (declared <- py_set (VList (map VStr canonical)) ;;
       actual <- py_set (VList actual_ids) ;;
       sorted (set_diff declared actual))%result
      = Ok (map VStr (sort_strs (filter (fun s => negb (set_mem (VStr s) actual)) declared)))).
    { unfold py_set, set_update. cbn [iter rbind].
      pose proof (set_update_list_strs canonical []) as H1. cbn [map] in H1.
      rewrite H1, Hactual. cbn [rbind].
      rewrite set_diff_strs. apply sorted_strs. }
    rewrite (bind_ok _ _ errors _ errors (lift_ok _ _ _ Hmissing)).
    rewrite truthy_str_list.
    destruct (nonempty _); unfold append, ret; rewrite ?app_nil_r; reflexivity.
  - apply sort_strs_sorted, NoDup_filter, add_strs_NoDup. constructor.
  - intros s. rewrite sort_strs_In, filter_In. unfold declared.
    rewrite add_strs_In, negb_true_iff, <- not_true_iff_false, set_mem_str.
    rewrite (set_update_list_In _ _ _ Hactual s).
    unfold actual_ids. rewrite declared_id_str. simpl. tauto.
Qed.

(** ** Loading *)

Lemma load_modules_spec (env : environment) (files : list (string * string))
    (loaded : list (string * value)) (errors : list message) :
  load_modules env files loaded errors
  = match first_uncaught env (map snd files) with
    | Some e => Raise e
    | None => Ok (loaded ++ flat_map (loaded_entry env) files,
                  errors ++ flat_map (load_failure env) (map snd files))
    end.
Proof.
  revert loaded errors. induction files as [|[module_name filename] rest IH];
    intros loaded errors.
  - simpl. rewrite !app_nil_r. reflexivity.
  - cbn [load_modules flat_map map snd first_uncaught].
    unfold loaded_entry at 1, load_failure at 1, uncaught at 1.
    cbn [fst snd]. destruct (yaml_file env filename); try reflexivity;
      rewrite IH; destruct (first_uncaught env (map snd rest));
      rewrite <- ?app_assoc; reflexivity.
Qed.

Lemma load_modules_ext (env env' : environment) (files : list (string * string))
    (loaded : list (string * value)) (errors : list message) :
  (forall filename, yaml_file env' filename = yaml_file env filename) ->
  load_modules env' files loaded errors = load_modules env files loaded errors.
Proof.
  intros Hfiles. revert loaded errors.
  induction files as [|[module_name filename] rest IH]; intros loaded errors;
    [reflexivity|].
  cbn [load_modules]. rewrite Hfiles.
  destruct (yaml_file env filename); auto.
Qed.

Lemma load_modules_returns (env : environment) (files : list (string * string))
    (loaded : list (string * value)) (errors : list message) :
  load_modules env files [] [] = Ok (loaded, errors) ->
  first_uncaught env (map snd files) = None
  /\ loaded = flat_map (loaded_entry env) files
  /\ errors = flat_map (load_failure env) (map snd files).
Proof.
  rewrite load_modules_spec. destruct (first_uncaught env (map snd files)).
  - discriminate.
  - cbn [app]. intros H. injection H as <- <-. auto.
Qed.

Lemma first_uncaught_none (env : environment) (files : list string) :
  first_uncaught env files = None
  <-> (forall filename e, In filename files -> yaml_file env filename <> Fails e).
Proof.
  induction files as [|x files IH]; cbn [first_uncaught].
  - split; [intros _ ? ? [] | reflexivity].
  - unfold uncaught. split.
    + intros H filename e [<- | Hin].
      * destruct (yaml_file env x); congruence.
      * destruct (yaml_file env x); try discriminate; now apply IH.
    + intros H. destruct (yaml_file env x) eqn:Hx.
      4: { exfalso. apply (H x e); [now left | exact Hx]. }
      all: apply IH; intros filename e' Hin; apply H; now right.
Qed.







(** ** Rules only append *)

Lemma framed_ret {A} (a : A) : framed (ret a).
Proof. intros errors. unfold ret. rewrite app_nil_r. reflexivity. Qed.

Lemma framed_lift {A} (r : result A) : framed (lift r).
Proof. intros errors. unfold lift. destruct r; rewrite ?app_nil_r; reflexivity. Qed.

Lemma framed_append (msg : message) : framed (append msg).
Proof. intros errors. reflexivity. Qed.

Lemma framed_bind {A B} (m : M A) (k : A -> M B) :
  framed m -> (forall a, framed (k a)) -> framed (bind m k).
Proof.
  intros Hm Hk errors. unfold bind. rewrite (Hm errors).
  destruct (m []) as [[a new]|e]; [|reflexivity].
  rewrite (Hk a (errors ++ new)), (Hk a new).
  destruct (k a []) as [[b new']|e]; [|reflexivity].
  rewrite app_assoc. reflexivity.
Qed.

Lemma framed_for_each {A} (xs : list A) (body : A -> M unit) :
  (forall x, framed (body x)) -> framed (for_each xs body).
Proof.
  intros Hbody. induction xs as [|x xs IH]; simpl.
  - apply framed_ret.
  - apply framed_bind; [apply Hbody | intros _; exact IH].
Qed.

(** Takes a rule apart along its binds, loops and branches. *)
Ltac framed :=
  repeat first
    [ apply framed_ret
    | apply framed_lift
    | apply framed_append
    | apply framed_for_each; intros ?
    | apply framed_bind; [|intros ?]
    | match goal with
      | |- framed (if ?c then _ else _) => destruct c
      | |- framed (match ?x with _ => _ end) => destruct x
      | |- framed (let _ := _ in _) => cbv zeta
      end ].

Lemma framed_validate_schema lib module_name data schema :
  framed (validate_schema lib module_name data schema).
Proof. unfold validate_schema. framed. Qed.

Lemma framed_consistency_rules (float_of_str : string -> result float64)
    (loaded : list (string * value)) :
  framed (consistency_rules float_of_str loaded).
Proof.
  unfold consistency_rules, validate_threshold_consistency,
    validate_provenance_applicability, validate_temporal_kinetics,
    validate_temporal_thresholds, validate_temporal_phase_ids,
    validate_phase_alignment, validate_tapvi_and_counts, validate_mapping_hooks.
  framed.
Qed.

Lemma run_framed (m : M unit) (errors : list message) :
  framed m ->
  run m errors = match run m [] with
                 | Ok new => Ok (errors ++ new)
                 | Raise e => Raise e
                 end.
Proof.
  intros H. unfold run. rewrite (H errors).
  destruct (m []) as [[[] new]|e]; reflexivity.
Qed.

(** ** After loading *)

Lemma main_after_loading (float_of_str : string -> result float64)
    (env : environment) (loaded : list (string * value)) :
  load_modules env YAML_FILES [] [] = Ok (loaded, []) ->
  main float_of_str env
  = (checked <- schema_step env loaded [] [] ;;
     match run (consistency_rules float_of_str loaded) [] with
     | Ok new => Ok (report (fst checked) (snd checked ++ new))
     | Raise e => Raise e
     end)%result.
Proof.
  intros Hl. unfold main. rewrite Hl. cbn [rbind nonempty].
  destruct (schema_step env loaded [] []) as [[warnings errors]|e]; [|reflexivity].
  cbn [rbind fst snd].
  rewrite (run_framed _ errors (framed_consistency_rules float_of_str loaded)).
  destruct (run (consistency_rules float_of_str loaded) []); reflexivity.
Qed.

(** C3 (as the code behaves).  With [jsonschema] there, the flag not given and
    [schema.json] missing, [main] records the error and goes on: the eight
    rules run on the loaded modules, what they report is printed after the
    missing-schema error, and 1 is returned.  Whenever the seven files
    load, the rules run as soon as the schema step returns: a load failure
    is the one thing that ends the run before them. *)
Theorem missing_schema_keeps_checking (float_of_str : string -> result float64)
    (env : environment)
    (loaded : list (string * value)) :
  load_modules env YAML_FILES [] [] = Ok (loaded, []) ->
  (skip_schema env = false -> jsonschema env <> None -> schema_json env = None ->
   main float_of_str env
   = match run (consistency_rules float_of_str loaded) [] with
     | Ok new =>
         Ok (map (print_tagged "[ERROR] ") ([Text "schema.json not found"] :: new), 1)
     | Raise e => Raise e
     end)
  /\ main float_of_str env
     = (checked <- schema_step env loaded [] [] ;;
        match run (consistency_rules float_of_str loaded) [] with
        | Ok new => Ok (report (fst checked) (snd checked ++ new))
        | Raise e => Raise e
        end)%result.
Proof.
  intros Hl. split; [|apply main_after_loading; exact Hl].
  intros Hskip Hlib Hschema.
  rewrite (main_after_loading float_of_str env loaded Hl).
  unfold schema_step. rewrite Hskip, Hschema. cbn [negb].
  destruct (jsonschema env); [|congruence].
  cbn [rbind fst snd app].
  destruct (run (consistency_rules float_of_str loaded) []); reflexivity.
Qed.

(** ** The return code *)

(** C9.  What [main] prints is the warnings, then either the errors or the
    two [[OK]] lines; it returns 0 exactly when the list of errors
    accumulated by the steps that ran is empty, whatever the warnings.  In a
    run that has a schema step (the flag [--skip-schema] not given) and no
    [jsonschema], that step is the one warning and no error, and the rules
    decide the outcome; the consistent bundle then prints the warning and
    the two [[OK]] lines and returns 0. *)
Theorem exit_code_and_missing_library (float_of_str : string -> result float64) :
  (forall env out code,
     main float_of_str env = Ok (out, code) ->
     exists warnings errors,
       accumulated float_of_str env warnings errors
       /\ out = map (print_tagged "[WARN] ") warnings
             ++ (if nonempty errors then map (print_tagged "[ERROR] ") errors
                 else OK_LINES)
       /\ code = (if nonempty errors then 1 else 0))
  /\ (forall env loaded,
        load_modules env YAML_FILES [] [] = Ok (loaded, []) ->
        skip_schema env = false ->
        jsonschema env = None ->
        schema_step env loaded [] []
        = Ok ([[Text "jsonschema package not installed; skipping schema validation"]], [])
        /\ main float_of_str env
           = match run (consistency_rules float_of_str loaded) [] with
             | Ok errors =>
                 Ok (report
                       [[Text "jsonschema package not installed; skipping schema validation"]]
                       errors)
             | Raise e => Raise e
             end)
  /\ main float_of_str env_no_library
     = Ok ([ [Text "[WARN] ";
              Text "jsonschema package not installed; skipping schema validation"];
             [Text "[OK] Ontology validation passed"];
             [Text "[OK] Threshold constants, kinetics, TAPVI terminology, and phase alignment are consistent"] ],
           0).
Proof.
  split; [|split].
  - intros env out code Hmain. unfold accumulated.
    destruct (load_modules env YAML_FILES [] []) as [[loaded failures]|e] eqn:Hl;
      [|unfold main in Hmain; rewrite Hl in Hmain; discriminate].
    cbn [fst snd].
    destruct (nonempty failures) eqn:Hne.
    + unfold main in Hmain. rewrite Hl in Hmain. cbn [rbind] in Hmain.
      rewrite Hne in Hmain. injection Hmain as <- <-.
      exists [], failures. rewrite Hne. auto.
    + destruct failures; [|discriminate].
      rewrite (main_after_loading float_of_str env loaded Hl) in Hmain.
      destruct (schema_step env loaded [] []) as [[warnings schema_errors]|e];
        [|discriminate].
      cbn [rbind fst snd] in Hmain.
      destruct (run (consistency_rules float_of_str loaded) []) as [new|e];
        [|discriminate].
      unfold report in Hmain.
      exists warnings, (schema_errors ++ new). split; [eauto|].
      destruct (nonempty (schema_errors ++ new)); injection Hmain as <- <-; auto.
  - intros env loaded Hl Hskip Hlib.
    assert (Hstep : schema_step env loaded [] []
      = Ok ([[Text "jsonschema package not installed; skipping schema validation"]], []))
      by (unfold schema_step; rewrite Hskip, Hlib; reflexivity).
    split; [exact Hstep|].
    rewrite (main_after_loading float_of_str env loaded Hl), Hstep. reflexivity.
  - vm_compute. reflexivity.
Qed.

(** ** Rule 8 and absent modules *)

Lemma for_each_raises {A} (xs : list A) (body : A -> M unit) (x : A) :
  In x xs ->
  (forall errors, exists e, body x errors = Raise e) ->
  forall errors, exists e, for_each xs body errors = Raise e.
Proof.
  intros Hin Hx. induction xs as [|y xs IH]; [contradiction|].
  intros errors. cbn [for_each]. unfold bind.
  destruct Hin as [-> | Hin].
  - destruct (Hx errors) as [e He]. rewrite He. eauto.
  - destruct (body y errors) as [[[] errors']|e]; [apply IH; exact Hin | eauto].
Qed.

Lemma for_each_returns {A} (xs : list A) (body : A -> M unit) :
  (forall x, In x xs -> forall errors, exists new, body x errors = Ok (tt, errors ++ new)) ->
  forall errors, exists new, for_each xs body errors = Ok (tt, errors ++ new).
Proof.
  induction xs as [|y xs IH]; intros Hbody errors.
  - exists []. simpl. unfold ret. rewrite app_nil_r. reflexivity.
  - cbn [for_each]. unfold bind.
    destruct (Hbody y (or_introl eq_refl) errors) as [new1 H1]. rewrite H1.
    destruct (IH (fun x Hx => Hbody x (or_intror Hx)) (errors ++ new1)) as [new2 H2].
    rewrite H2. exists (new1 ++ new2). rewrite app_assoc. reflexivity.
Qed.

(** With one of its five modules absent rule 8 raises; with the five there
    and well shaped it returns, and only appends. *)
Lemma mapping_hooks_modules (files : list (string * value))
    (errors : list message) :
  (forall name,
     In name modules_requiring_mappings ->
     lookup name files = None ->
     exists e, run (validate_mapping_hooks files) errors = Raise e)
  /\ ((forall name, In name modules_requiring_mappings ->
                    exists contract, schema_contract files name = Ok (VDict contract)) ->
      (exists template, mapping_template files = Ok (VDict template)) ->
      exists new, run (validate_mapping_hooks files) errors = Ok (errors ++ new)).
Proof.
  split.
  - intros name Hin Habsent. unfold run, validate_mapping_hooks.
    match goal with
    | |- context [bind (for_each ?xs ?body) ?k] =>
        destruct (for_each_raises xs body name Hin) with (errors := errors) as [e He];
          [ intros errors0; unfold bind, lift, subscript; rewrite Habsent; simpl; eauto
          | unfold bind at 1; rewrite He; eauto ]
    end.
  - intros Hcontracts [template Htemplate].
    unfold run, validate_mapping_hooks.
    match goal with
    | |- context [bind (for_each ?xs ?body) ?k] =>
        destruct (for_each_returns xs body) with (errors := errors) as [new1 H1]
    end.
    { intros name Hin errors0. destruct (Hcontracts name Hin) as [contract Hc].
      unfold schema_contract in Hc.
      rewrite (bind_ok _ _ errors0 _ errors0 (lift_ok _ _ _ Hc)).
      rewrite (bind_ok _ _ errors0 _ errors0
                 (lift_ok (get (VDict contract) "mapping_fields_optional" VNone) _ _ eq_refl)).
      rewrite if_append. eauto. }
    rewrite (bind_ok _ _ _ _ _ H1).
    unfold mapping_template in Htemplate.
    destruct (module <- subscript files "imaging_cdes" ;;
              get module "standards_mapping_hooks" empty_dict)%result
      as [hooks|] eqn:Hhooks; [|discriminate].
    cbn [rbind] in Htemplate.
    rewrite (bind_ok _ _ _ hooks _ (lift_ok (Ok hooks) _ _ eq_refl)).
    rewrite (bind_ok _ _ _ _ _ (lift_ok _ _ _ Htemplate)).
    assert (Hmissing :
      (ks <- keys (VDict template) ;;
       present <- set_update_list [] ks ;;
       sorted (set_diff required_template_keys present))%result
      = Ok (map VStr (sort_strs
              (filter (fun s => negb (set_mem (VStr s)
                                        (map VStr (add_strs [] (map fst template)))))
                 ["radlex_id"; "dicom_sr_code"; "fhir_observation_code";
                  "omop_concept_id"]%string)))).
    { cbn [keys rbind].
      replace (map (fun kv : string * value => VStr (fst kv)) template)
        with (map VStr (map fst template)) by (rewrite map_map; reflexivity).
      pose proof (set_update_list_strs (map fst template) []) as Hs. cbn [map] in Hs.
      rewrite Hs. cbn [rbind].
      change required_template_keys
        with (map VStr ["radlex_id"; "dicom_sr_code"; "fhir_observation_code";
                        "omop_concept_id"]%string).
      rewrite set_diff_strs. apply sorted_strs. }
    rewrite (bind_ok _ _ _ _ _ (lift_ok _ _ _ Hmissing)).
    rewrite if_append, <- app_assoc. eauto.
Qed.

Lemma consistency_rules_need_modules (float_of_str : string -> result float64)
    (loaded : list (string * value))
    (errors : list message) (name : string) :
  In name modules_read ->
  lookup name loaded = None ->
  exists e, run (consistency_rules float_of_str loaded) errors = Raise e.
Proof.
  intros Hin Habsent.
  assert (Hrun : forall (m : M unit) errors0,
            (exists e, m errors0 = Raise e) -> exists e, run m errors0 = Raise e).
  { intros m errors0 [e He]. unfold run. rewrite He. eauto. }
  apply Hrun. clear Hrun.
  assert (Hhooks : forall errors0, exists e, validate_mapping_hooks loaded errors0 = Raise e
                   \/ ~ In name modules_requiring_mappings).
  { intros errors0.
    destruct (in_dec string_dec name modules_requiring_mappings) as [Hreq | Hreq].
    - destruct (proj1 (mapping_hooks_modules loaded errors0) name Hreq Habsent)
        as [e He].
      exists e. left. unfold run in He.
      destruct (validate_mapping_hooks loaded errors0) as [[[] ?]|]; congruence.
    - exists TypeError. now right. }
  unfold consistency_rules.
  simpl in Hin.
  destruct Hin as [<- | [<- | [<- | [<- | [<- | [<- | []]]]]]].
  all: repeat match goal with
    | |- exists e, bind ?m ?k ?errors0 = Raise e =>
        unfold bind at 1;
        let E := fresh "E" in
        destruct (m errors0) as [[? ?]|?] eqn:E; [|eauto];
        try (unfold lift, subscript in E;
             match type of E with
             | context [lookup ?n ?l] =>
                 first [ rewrite Habsent in E; discriminate
                       | destruct (lookup n l); [injection E as <- <- | discriminate] ]
             end)
    end.
  all: match goal with
       | |- exists e, validate_mapping_hooks _ ?errors0 = Raise e =>
           destruct (Hhooks errors0) as [e [He | Hn]]; [eauto|]
       end.
  all: simpl in Hn; exfalso; tauto.
Qed.

Lemma for_each_app {A} (xs ys : list A) (body : A -> M unit) (errors : list message) :
  for_each (xs ++ ys) body errors
  = (for_each xs body ;; for_each ys body)%M errors.
Proof.
  revert errors. induction xs as [|x xs IH]; intros errors; [reflexivity|].
  cbn [app for_each]. unfold bind.
  destruct (body x errors) as [[[] errors']|e]; [|reflexivity].
  rewrite IH. reflexivity.
Qed.

(** The first module that is absent is the [KeyError] rule 8 dies from. *)
Lemma mapping_hooks_key_error_first (files : list (string * value))
    (errors : list message) (before after : list string) (name : string) :
  modules_requiring_mappings = before ++ name :: after ->
  (forall earlier, In earlier before ->
                   exists contract, schema_contract files earlier = Ok (VDict contract)) ->
  lookup name files = None ->
  run (validate_mapping_hooks files) errors = Raise (KeyError name).
Proof.
  intros Hsplit Hbefore Habsent. unfold run, validate_mapping_hooks.
  rewrite Hsplit. unfold bind at 1. rewrite for_each_app. unfold bind at 1.
  match goal with
  | |- context [for_each before ?body] =>
      destruct (for_each_returns before body) with (errors := errors) as [new1 H1]
  end.
  { intros earlier Hin errors0. destruct (Hbefore earlier Hin) as [contract Hc].
    unfold schema_contract in Hc.
    rewrite (bind_ok _ _ errors0 _ errors0 (lift_ok _ _ _ Hc)).
    rewrite (bind_ok _ _ errors0 _ errors0
               (lift_ok (get (VDict contract) "mapping_fields_optional" VNone) _ _ eq_refl)).
    rewrite if_append. eauto. }
  rewrite H1. cbn [for_each]. unfold bind at 1. unfold bind at 1.
  unfold lift at 1, subscript. rewrite Habsent. reflexivity.
Qed.

(** C4 (as the code behaves).  [validate_mapping_hooks] indexes the mapping
    by each of its five module names: when one of them is absent from the
    mapping it raises, and returns nothing: a [KeyError] for the first
    absent name, when the modules before it are well shaped.  When the five
    modules are there, with a schema contract and a mapping template that
    are mappings (an absent one stands for the empty mapping), it returns,
    and only appends.  The other rules receive module trees that [main]
    takes from the mapping: with a module they read absent, the rules of
    [main] raise as well. *)
Theorem absent_module_raises (float_of_str : string -> result float64)
    (files : list (string * value)) (errors : list message) :
  (forall name,
     In name modules_requiring_mappings ->
     lookup name files = None ->
     exists e, run (validate_mapping_hooks files) errors = Raise e)
  /\ ((forall name, In name modules_requiring_mappings ->
                    exists contract, schema_contract files name = Ok (VDict contract)) ->
      (exists template, mapping_template files = Ok (VDict template)) ->
      exists new, run (validate_mapping_hooks files) errors = Ok (errors ++ new))
  /\ (forall before after name,
        modules_requiring_mappings = before ++ name :: after ->
        (forall earlier, In earlier before ->
                         exists contract, schema_contract files earlier = Ok (VDict contract)) ->
        lookup name files = None ->
        run (validate_mapping_hooks files) errors = Raise (KeyError name))
  /\ (forall name,
        In name modules_read ->
        lookup name files = None ->
        exists e, run (consistency_rules float_of_str files) errors = Raise e).
Proof.
  split; [|split; [|split]].
  - apply mapping_hooks_modules.
  - apply mapping_hooks_modules.
  - apply mapping_hooks_key_error_first.
  - intros name. apply consistency_rules_need_modules.
Qed.

(** ** The tolerance comparison *)

(** C5. For operands that [float] converts to [x] and [y], one of them a
    finite number (as the expected constant is, in every comparison the
    validator makes), [nearly_equal a b] returns whether [|x - y| <= 1e-9] in
    binary64 arithmetic; it gives the same answer with the operands
    exchanged, and the answer is that of the converted operands. *)
Theorem nearly_equal_tolerance (float_of_str : string -> result float64)
    (a b : value) (x y : float64) :
  py_float float_of_str a = Ok x ->
  py_float float_of_str b = Ok y ->
  is_finite x = true \/ is_finite y = true ->
  nearly_equal float_of_str a b default_tol = Ok (fleb (fabs (fsub x y)) f1e_9)
  /\ nearly_equal float_of_str a b default_tol
     = nearly_equal float_of_str b a default_tol
  /\ nearly_equal float_of_str a b default_tol
     = nearly_equal float_of_str (VFloat x) (VFloat y) default_tol.
Proof.
  intros Ha Hb Hfin. unfold nearly_equal. rewrite Ha, Hb. simpl.
  repeat split.
  - apply isclose_tolerance. exact Hfin.
  - apply isclose_sym.
Qed.


(** * The properties on the example documents *)

Lemma threshold_consistency_four_checks_witness :
  run (validate_threshold_consistency no_float framework_29_5 good_provenance) []
  = Ok [[Text "GFAP threshold mismatch in cbim_framework.yaml: ";
         Str (VFloat f29_5); Text " != "; Str (VFloat f30)]].
Proof.
  exact (proj1 (threshold_consistency_four_checks no_float
                  framework_29_5 good_provenance []
                  (VFloat f29_5) (VFloat f360) (VFloat f30) (VFloat f360)
                  false true true true
                  eq_refl eq_refl eq_refl eq_refl
                  (or_intror eq_refl) (or_intror eq_refl)
                  (or_intror eq_refl) (or_intror eq_refl))).
Defined.

Lemma temporal_kinetics_shape_witness :
  run (validate_temporal_kinetics legacy_temporal) [] = Ok [].
Proof.
  refine (proj2 (proj1 (temporal_kinetics_shape no_float legacy_temporal legacy_subacute []
                          eq_refl) legacy_windows eq_refl _) _).
  - discriminate.
  - repeat constructor;
      eexists; (split; [reflexivity | split; [discriminate | reflexivity]]).
Defined.

(** At [schema.json] missing, the error of rule 7 is printed as well: the
    rules ran. *)
Lemma missing_schema_rules_still_run :
  skip_schema env_no_schema_file = false
  /\ jsonschema env_no_schema_file <> None
  /\ schema_json env_no_schema_file = None
  /\ main no_float env_no_schema_file
     = Ok ([ [Text "[ERROR] "; Text "schema.json not found"];
             [Text "[ERROR] "; Text "Expected 18 supplementary CDEs, found ";
              Str (VInt 17)] ], 1).
Proof. repeat split. discriminate. Qed.

Lemma missing_schema_keeps_checking_witness :
  main no_float env_no_schema_file
  = Ok (map (print_tagged "[ERROR] ")
          [ [Text "schema.json not found"];
            [Text "Expected 18 supplementary CDEs, found "; Str (VInt 17)] ], 1).
Proof.
  refine (proj1 (missing_schema_keeps_checking no_float env_no_schema_file
                   (good_loaded short_imaging) eq_refl) eq_refl _ eq_refl).
  discriminate.
Defined.

(** Without the provenance module in the mapping, rule 8 dies from the
    [KeyError] of the subscript. *)
Lemma mapping_hooks_key_error :
  lookup "provenance" loaded_without_provenance = None
  /\ run (validate_mapping_hooks loaded_without_provenance) []
     = Raise (KeyError "provenance").
Proof. split; reflexivity. Qed.

Lemma absent_module_raises_witness :
  exists e, run (validate_mapping_hooks loaded_without_provenance) [] = Raise e.
Proof.
  refine (proj1 (absent_module_raises no_float loaded_without_provenance [])
            "provenance" _ eq_refl).
  simpl. tauto.
Defined.

Lemma nearly_equal_tolerance_witness :
  nearly_equal no_float (VInt 30) (VFloat f29_5) default_tol
    = Ok (fleb (fabs (fsub f30 f29_5)) f1e_9)
  /\ nearly_equal no_float (VInt 30) (VFloat f29_5) default_tol
     = nearly_equal no_float (VFloat f29_5) (VInt 30) default_tol
  /\ nearly_equal no_float (VInt 30) (VFloat f29_5) default_tol
     = nearly_equal no_float (VFloat f30) (VFloat f29_5) default_tol.
Proof.
  apply (nearly_equal_tolerance no_float (VInt 30) (VFloat f29_5) f30 f29_5);
    [reflexivity | reflexivity | left; reflexivity].
Defined.

Lemma phase_alignment_errors_witness :
  exists unknown : list string,
    run (validate_phase_alignment good_temporal misaligned_imaging) []
    = Ok ([[Text "Canonical phase ID mismatch between temporal_phases.yaml and imaging_cdes.yaml"]]
          ++ (if nonempty unknown
              then [[Text "imaging_cdes.yaml references unknown temporal phase IDs: ";
                     Str (VList (map VStr unknown))]]
              else []))
    /\ StronglySorted str_lt unknown
    /\ (forall s, In s unknown
                  <-> In s ["late"; "acute"; "chronic"; "chronic"; "subacute"]%string
                      /\ ~ In s ["hyperacute"; "acute"; "subacute"]%string).
Proof.
  apply (phase_alignment_errors good_temporal misaligned_imaging []
           ["hyperacute"; "acute"; "subacute"]%string
           ["hyperacute"; "subacute"; "acute"]%string
           [cde "core_1" ["late"; "acute"]%string; cde "core_2" ["chronic"]%string]
           [cde "tapvi" ["chronic"; "subacute"]%string]
           [["late"; "acute"]; ["chronic"]; ["chronic"; "subacute"]]%string);
    try reflexivity.
  repeat constructor.
Defined.

Lemma tapvi_and_counts_checks_witness :
  run (validate_tapvi_and_counts short_imaging) []
  = Ok [[Text "Expected 18 supplementary CDEs, found "; Str (VInt 17)]].
Proof.
  refine (proj1 (proj2 (tapvi_and_counts_checks short_imaging (VList nine_core)
                          seventeen_supplementary seventeen_ids 9 []
                          eq_refl eq_refl eq_refl _))
            eq_refl eq_refl _ _).
  - repeat constructor.
  - simpl. tauto.
  - simpl. intuition discriminate.
Defined.



Lemma exit_code_and_missing_library_witness :
  schema_step env_no_library (good_loaded good_imaging) [] []
  = Ok ([[Text "jsonschema package not installed; skipping schema validation"]], [])
  /\ main no_float env_no_library
     = Ok (report [[Text "jsonschema package not installed; skipping schema validation"]] []).
Proof.
  exact (proj1 (proj2 (exit_code_and_missing_library no_float))
           env_no_library (good_loaded good_imaging) eq_refl eq_refl eq_refl).
Defined.

Lemma temporal_phase_ids_missing_witness :
  exists missing : list string,
    run (validate_temporal_phase_ids sparse_temporal) []
    = Ok (if nonempty missing
          then [[Text "temporal_phases.yaml missing phase IDs declared in schema_contract: ";
                 Str (VList (map VStr missing))]]
          else [])
    /\ StronglySorted str_lt missing
    /\ (forall s, In s missing
                  <-> In s ["hyperacute"; "subacute"; "chronic"; "acute"]%string
                      /\ ~ exists kvs, In (VDict kvs) (map snd sparse_blocks)
                                       /\ lookup "id" kvs = Some (VStr s) /\ s <> ""%string).
Proof.
  apply (temporal_phase_ids_missing sparse_temporal []
           ["hyperacute"; "subacute"; "chronic"; "acute"]%string sparse_blocks);
    try reflexivity.
  intros kvs id Hin Hl Ht. simpl in Hin.
  repeat (destruct Hin as [E | Hin];
          [ try discriminate; injection E as <-; simpl in Hl;
            try discriminate; injection Hl as <-; reflexivity | ]).
  contradiction.
Defined.

(** What rule 5 reports on [sparse_temporal]: the three canonical
    identifiers no mapping with a truthy [id] carries, in order; not
    [recovery], which the canonical list does not name. *)
Example sparse_temporal_report :
  run (validate_temporal_phase_ids sparse_temporal) []
  = Ok [[Text "temporal_phases.yaml missing phase IDs declared in schema_contract: ";
         Str (VList [VStr "acute"; VStr "chronic"; VStr "subacute"])]].
Proof. reflexivity. Qed.

(** The canonical lists in two orders: the alignment error, and no other. *)
Example reordered_lists_report :
  run (validate_phase_alignment good_temporal
         (imaging reordered_phase_ids nine_core eighteen_supplementary)) []
  = Ok [[Text "Canonical phase ID mismatch between temporal_phases.yaml and imaging_cdes.yaml"]].
Proof. reflexivity. Qed.

(** * Further properties *)

(** ** The threshold lookup *)

Lemma first_threshold_skips (before : list (list (string * value)))
    (rest : list value) (analyte_id : string) :
  Forall (other_id analyte_id) before ->
  first_threshold (map VDict before ++ rest) analyte_id
  = first_threshold rest analyte_id.
Proof.
  induction 1 as [|variable before Hother _ IH]; [reflexivity|].
  cbn [map app first_threshold get rbind].
  replace (py_eq match lookup "id" variable with
                 | Some v => v
                 | None => VNone
                 end (VStr analyte_id)) with false; [exact IH|].
  symmetry. apply not_true_is_false. intros H. apply py_eq_str_r in H.
  unfold other_id in Hother. destruct (lookup "id" variable); congruence.
Qed.

(** X1. [get_biomarker_threshold] answers with the threshold of the first
    variable whose [id] is the analyte, whatever comes after it, later
    variables with the same [id] included; a variable without
    [ct_threshold] answers [None], and so does a list where no variable has
    the [id]. *)
Theorem biomarker_threshold_first_match (cbim : value)
    (variables : list (list (string * value))) (analyte_id : string) :
  framework_variables cbim = Ok (VList (map VDict variables)) ->
  (forall before variable after,
     variables = before ++ variable :: after ->
     Forall (other_id analyte_id) before ->
     lookup "id" variable = Some (VStr analyte_id) ->
     get_biomarker_threshold cbim analyte_id = Ok (ct_threshold variable))
  /\ (Forall (other_id analyte_id) variables ->
      get_biomarker_threshold cbim analyte_id = Ok VNone).
Proof.
  intros Hv.
  assert (Hget : get_biomarker_threshold cbim analyte_id
                 = first_threshold (map VDict variables) analyte_id).
  { unfold get_biomarker_threshold. unfold framework_variables in Hv.
    destruct (get cbim "channels" empty_dict) as [channels|]; [|discriminate].
    cbn [rbind] in *.
    destruct (get channels "biomarker" empty_dict) as [biomarker|]; [|discriminate].
    cbn [rbind] in *. rewrite Hv. reflexivity. }
  split.
  - intros before variable after -> Hbefore Hid. rewrite Hget.
    rewrite map_app, (first_threshold_skips before _ analyte_id Hbefore).
    cbn [map first_threshold get rbind]. rewrite Hid.
    replace (py_eq (VStr analyte_id) (VStr analyte_id)) with true
      by (symmetry; now apply py_eq_str_r).
    reflexivity.
  - intros Hall. rewrite Hget.
    rewrite <- (app_nil_r (map VDict variables)).
    rewrite (first_threshold_skips variables [] analyte_id Hall). reflexivity.
Qed.

(** ** Rule 4 *)

(** X2. Rule 4 makes two checks, each on its own value, against the
    constants of rule 1: an absent value gives one error naming the field,
    a value out of tolerance one error naming the value and the constant, a
    value within tolerance nothing.  A temporal module without
    [biomarker_kinetics] gets the two missing-field errors. *)
Theorem temporal_thresholds_two_checks (float_of_str : string -> result float64)
    (temporal : value) (errors : list message) (v1 v2 : value) (c1 c2 : bool) :
  decision_value temporal "gfap" = Ok v1 ->
  decision_value temporal "uchl1" = Ok v2 ->
  compared float_of_str v1 (VFloat f30) c1 ->
  compared float_of_str v2 (VFloat f360) c2 ->
  run (validate_temporal_thresholds float_of_str temporal) errors
  = Ok (errors
        ++ threshold_diagnostics v1 c1
             [Text "temporal_phases.yaml missing biomarker_kinetics.gfap.ct_decision_threshold.value"]
             [Text "Temporal GFAP threshold mismatch: "; Str v1; Text " != "; Str (VFloat f30)]
        ++ threshold_diagnostics v2 c2
             [Text "temporal_phases.yaml missing biomarker_kinetics.uchl1.ct_decision_threshold.value"]
             [Text "Temporal UCH-L1 threshold mismatch: "; Str v2; Text " != "; Str (VFloat f360)])
  /\ (forall fields,
        temporal = VDict fields -> lookup "biomarker_kinetics" fields = None ->
        run (validate_temporal_thresholds float_of_str temporal) errors
        = Ok (errors
              ++ [ [Text "temporal_phases.yaml missing biomarker_kinetics.gfap.ct_decision_threshold.value"];
                   [Text "temporal_phases.yaml missing biomarker_kinetics.uchl1.ct_decision_threshold.value"] ])).
Proof.
  intros H1 H2 C1 C2.
  assert (Hrun : forall w1 w2 d1 d2,
            decision_value temporal "gfap" = Ok w1 ->
            decision_value temporal "uchl1" = Ok w2 ->
            compared float_of_str w1 (VFloat f30) d1 ->
            compared float_of_str w2 (VFloat f360) d2 ->
            run (validate_temporal_thresholds float_of_str temporal) errors
            = Ok (errors
                  ++ threshold_diagnostics w1 d1
                       [Text "temporal_phases.yaml missing biomarker_kinetics.gfap.ct_decision_threshold.value"]
                       [Text "Temporal GFAP threshold mismatch: "; Str w1; Text " != ";
                        Str (VFloat f30)]
                  ++ threshold_diagnostics w2 d2
                       [Text "temporal_phases.yaml missing biomarker_kinetics.uchl1.ct_decision_threshold.value"]
                       [Text "Temporal UCH-L1 threshold mismatch: "; Str w2; Text " != ";
                        Str (VFloat f360)])).
  { intros w1 w2 d1 d2 G1 G2 D1 D2.
    unfold run, validate_temporal_thresholds. unfold decision_value in G1, G2.
    destruct (get temporal "biomarker_kinetics" empty_dict) as [kinetics|] eqn:Hk;
      [|discriminate].
    cbn [rbind] in G1, G2.
    rewrite (bind_ok _ _ errors kinetics errors (lift_ok (Ok kinetics) _ _ eq_refl)).
    rewrite (bind_ok _ _ errors _ errors (lift_ok _ _ _ G1)).
    rewrite (bind_ok _ _ errors _ errors (lift_ok _ _ _ G2)).
    rewrite (bind_ok _ _ _ tt _
               (threshold_check_step float_of_str w1 (VFloat f30) "gfap_pg_ml" d1 _
                  (fun expected => [Text "Temporal GFAP threshold mismatch: ";
                                    Str w1; Text " != "; Str expected])
                  errors eq_refl D1)).
    rewrite (threshold_check_step float_of_str w2 (VFloat f360) "uchl1_pg_ml" d2 _
               (fun expected => [Text "Temporal UCH-L1 threshold mismatch: ";
                                 Str w2; Text " != "; Str expected])
               _ eq_refl D2).
    rewrite <- app_assoc. reflexivity. }
  split; [now apply Hrun|].
  intros fields -> Habsent.
  rewrite (Hrun VNone VNone true true).
  - reflexivity.
  - unfold decision_value. cbn [get]. rewrite Habsent. reflexivity.
  - unfold decision_value. cbn [get]. rewrite Habsent. reflexivity.
  - now left.
  - now left.
Qed.

(** ** Rule 2 *)

Lemma required_context_missing (names : list string) :
  (declared <- py_set (VList (map VStr names)) ;;
   sorted (set_diff required_context declared))%result
  = Ok (map VStr (filter (fun c => negb (existsb (String.eqb c) names))
                    ["adult"; "mild_tbi"]%string)).
Proof.
  unfold py_set, set_update. cbn [iter rbind].
  pose proof (set_update_list_strs names []) as Hs. cbn [map] in Hs.
  rewrite Hs. cbn [rbind].
  change required_context with (map VStr ["adult"; "mild_tbi"]%string).
  rewrite set_diff_strs, sorted_strs. f_equal. f_equal.
  assert (Hmem : forall c, set_mem (VStr c) (map VStr (add_strs [] names))
                           = existsb (String.eqb c) names).
  { intros c. rewrite set_mem_map_str.
    apply eq_true_iff_eq. rewrite !existsb_eqb_In, add_strs_In. simpl. tauto. }
  cbn [filter]. rewrite !Hmem.
  destruct (existsb (String.eqb "adult") names),
           (existsb (String.eqb "mild_tbi") names); reflexivity.
Qed.

(** X3. Rule 2 treats the two provenance blocks one after the other, each
    on its own: a block without [applies_to] gives one error naming the
    field; a block that declares contexts gives one error listing the
    required contexts ([adult], [mild_tbi]) it lacks, in that order, and
    nothing when it declares both, whatever else it declares. *)
Theorem provenance_applicability_checks (provenance : value) (errors : list message)
    (gfap uchl1 : option (list string)) :
  applies_to provenance "gfap_ct_threshold" = Ok (declared_contexts gfap) ->
  applies_to provenance "uchl1_ct_threshold" = Ok (declared_contexts uchl1) ->
  run (validate_provenance_applicability provenance) errors
  = Ok (errors
        ++ applicability_diagnostics "gfap_ct_threshold" gfap
        ++ applicability_diagnostics "uchl1_ct_threshold" uchl1)
  /\ (forall names, In "adult"%string names -> In "mild_tbi"%string names ->
                    forall field, applicability_diagnostics field (Some names) = []).
Proof.
  intros Hg Hu. split.
  - assert (Hstep : forall tp field contexts errors0,
              (blk <- get tp field empty_dict ;; get blk "applies_to" VNone)%result
              = Ok (declared_contexts contexts) ->
              (applies_to <- lift (blk <- get tp field empty_dict ;;
                                   get blk "applies_to" VNone)%result ;;
               if is_None applies_to then
                 append [Text "provenance.yaml missing threshold_provenance.";
                         Str (VStr field); Text ".applies_to"]
               else
                 missing <- lift (declared <- py_set applies_to ;;
                                  sorted (set_diff required_context declared))%result ;;
                 if truthy (VList missing) then
                   append [Text "provenance.yaml "; Str (VStr field);
                           Text ".applies_to missing required contexts: ";
                           Str (VList missing)]
                 else ret tt)%M errors0
              = Ok (tt, errors0 ++ applicability_diagnostics field contexts)).
    { intros tp field contexts errors0 H.
      rewrite (bind_ok _ _ errors0 _ errors0 (lift_ok _ _ _ H)).
      destruct contexts as [names|]; cbn [declared_contexts is_None]; [|reflexivity].
      rewrite (bind_ok _ _ errors0 _ errors0 (lift_ok _ _ _ (required_context_missing names))).
      unfold applicability_diagnostics. rewrite truthy_str_list.
      destruct (nonempty _); unfold append, ret; rewrite ?app_nil_r; reflexivity. }
    unfold run, validate_provenance_applicability.
    unfold applies_to in Hg, Hu.
    destruct (get provenance "threshold_provenance" empty_dict) as [tp|]; [|discriminate].
    cbn [rbind] in Hg, Hu.
    rewrite (bind_ok _ _ errors tp errors (lift_ok (Ok tp) _ _ eq_refl)).
    cbn [for_each].
    rewrite (bind_ok _ _ _ tt _ (Hstep tp "gfap_ct_threshold"%string gfap errors Hg)).
    rewrite (bind_ok _ _ _ tt _ (Hstep tp "uchl1_ct_threshold"%string uchl1 _ Hu)).
    unfold ret. rewrite <- app_assoc. reflexivity.
  - intros names Ha Hm field. unfold applicability_diagnostics. cbn [filter].
    apply existsb_eqb_In in Ha, Hm. rewrite Ha, Hm. reflexivity.
Qed.

(** ** Values that are no numbers *)

(** X4. A threshold that [float] does not convert ends rule 1 with the
    exception of the conversion, before anything is reported: [TypeError]
    for a list or a mapping. *)
Theorem threshold_conversion_failure (float_of_str : string -> result float64)
    (cbim provenance : value) (errors : list message) (v1 v2 v3 v4 : value) (e : exn) :
  get_biomarker_threshold cbim "gfap_pg_ml" = Ok v1 ->
  get_biomarker_threshold cbim "uchl1_pg_ml" = Ok v2 ->
  provenance_value provenance "gfap_ct_threshold" = Ok v3 ->
  provenance_value provenance "uchl1_ct_threshold" = Ok v4 ->
  v1 <> VNone ->
  py_float float_of_str v1 = Raise e ->
  run (validate_threshold_consistency float_of_str cbim provenance) errors = Raise e
  /\ (forall xs, py_float float_of_str (VList xs) = Raise TypeError)
  /\ (forall kvs, py_float float_of_str (VDict kvs) = Raise TypeError).
Proof.
  intros H1 H2 H3 H4 Hn He. split; [|split; reflexivity].
  unfold run, validate_threshold_consistency.
  rewrite (bind_ok _ _ errors v1 errors (lift_ok _ _ _ H1)).
  rewrite (bind_ok _ _ errors v2 errors (lift_ok _ _ _ H2)).
  rewrite (bind_ok _ _ errors v3 errors (lift_ok _ _ _ H3)).
  rewrite (bind_ok _ _ errors v4 errors (lift_ok _ _ _ H4)).
  replace (is_None v1) with false by (destruct v1; [congruence | reflexivity ..]).
  unfold bind at 1. unfold bind at 1. unfold lift at 1. cbn [subscript lookup String.eqb].
  cbv beta iota.
  unfold bind at 1. unfold lift at 1. unfold nearly_equal. rewrite He. reflexivity.
Qed.

(** ** The tolerance as a parameter *)

Lemma nonnegative_not_negative (tol : float64) : fleb f0 tol = true -> fltb tol f0 = false.
Proof. destruct tol as [s|s| |s m e]; try destruct s; cbv; congruence. Qed.

Lemma isclose_finite_tol (x y tol : float64) :
  fleb f0 tol = true ->
  is_finite x = true -> is_finite y = true ->
  isclose x y f0 tol = Ok (fleb (fabs (fsub x y)) tol).
Proof.
  intros Ht Hx Hy. unfold isclose.
  rewrite (nonnegative_not_negative tol Ht).
  change (fltb f0 f0) with false. cbn [orb].
  destruct (feqb x y) eqn:E.
  - rewrite (fsub_self_zero x y Hx Hy E), Ht. reflexivity.
  - replace (is_infinity x || is_infinity y) with false
      by (destruct x, y; try discriminate; reflexivity).
    rewrite !fmul_zero_finite by assumption.
    rewrite (fabs_fsub_comm y x).
    f_equal.
    destruct (fleb (fabs (fsub x y)) f0) eqn:Z.
    + simpl. symmetry. apply fleb_fabs_zero; [exact Ht | exact Z].
    + reflexivity.
Qed.

(** X5. [nearly_equal] with a tolerance of the caller's: a negative
    tolerance is the [ValueError] of [math.isclose]; with a tolerance that
    is zero or more, finite operands are close exactly when
    [|x - y| <= tol] in binary64 arithmetic. *)
Theorem nearly_equal_with_tolerance (float_of_str : string -> result float64)
    (a b : value) (x y tol : float64) :
  py_float float_of_str a = Ok x ->
  py_float float_of_str b = Ok y ->
  (fltb tol f0 = true -> nearly_equal float_of_str a b tol = Raise ValueError)
  /\ (fleb f0 tol = true -> is_finite x = true -> is_finite y = true ->
      nearly_equal float_of_str a b tol = Ok (fleb (fabs (fsub x y)) tol)).
Proof.
  intros Ha Hb. unfold nearly_equal. rewrite Ha, Hb. cbn [rbind]. split.
  - intros Hneg. unfold isclose. rewrite Hneg, orb_true_r. reflexivity.
  - apply isclose_finite_tol.
Qed.

(** X6. A NaN or an infinity is never within tolerance of a finite number,
    whatever the tolerance: a threshold written [.nan] or [.inf] is a
    mismatch, not an exception. *)
Theorem nearly_equal_not_finite (float_of_str : string -> result float64)
    (b : value) (x y tol : float64) :
  py_float float_of_str b = Ok y ->
  is_finite x = false ->
  is_finite y = true ->
  fltb tol f0 = false ->
  nearly_equal float_of_str (VFloat x) b tol = Ok false
  /\ nearly_equal float_of_str b (VFloat x) tol = Ok false.
Proof.
  intros Hb Hx Hy Ht. unfold nearly_equal. cbn [py_float]. rewrite Hb. cbn [rbind].
  unfold isclose. rewrite Ht. change (fltb f0 f0) with false. cbn [orb].
  destruct x as [sx|sx| |sx mx ex]; try discriminate;
    destruct y as [sy|sy| |sy my ey]; try discriminate;
    split; try destruct sx; try destruct sy; reflexivity.
Qed.

(** ** Rule 8 *)

Lemma for_each_diagnostics_in {A} (xs : list A) (body : A -> M unit)
    (diag : A -> list message) :
  (forall x, In x xs -> forall errors, body x errors = Ok (tt, errors ++ diag x)) ->
  forall errors, for_each xs body errors = Ok (tt, errors ++ flat_map diag xs).
Proof.
  induction xs as [|x xs IH]; intros Hbody errors.
  - simpl. unfold ret. rewrite app_nil_r. reflexivity.
  - cbn [for_each flat_map]. unfold bind at 1.
    rewrite (Hbody x (or_introl eq_refl)).
    rewrite IH by (intros y Hy; apply Hbody; now right).
    rewrite <- app_assoc. reflexivity.
Qed.

Lemma lookup_None_iff {A} (k : string) (kvs : list (string * A)) :
  lookup k kvs = None <-> ~ In k (map fst kvs).
Proof.
  induction kvs as [|[k' v] kvs IH]; simpl; [tauto|].
  destruct (String.eqb k k') eqn:E.
  - apply String.eqb_eq in E. subst. split; [discriminate | tauto].
  - apply String.eqb_neq in E. rewrite IH. split; [intros H [H1 | H2]; congruence | tauto].
Qed.

(** X7. With its five modules in the mapping, rule 8 reports one error for
    each module, in the order of the list, whose schema contract has no
    truthy [mapping_fields_optional], and then, in one error, the sorted
    list of the four required keys that the default mapping template of the
    imaging module lacks, or nothing when it has the four. *)
Theorem mapping_hooks_report (files : list (string * value)) (errors : list message)
    (contracts : string -> list (string * value)) (template : list (string * value)) :
  (forall name, In name modules_requiring_mappings ->
                schema_contract files name = Ok (VDict (contracts name))) ->
  mapping_template files = Ok (VDict template) ->
  exists missing : list string,
    run (validate_mapping_hooks files) errors
    = Ok (errors
          ++ flat_map (flag_diagnostics contracts) modules_requiring_mappings
          ++ (if nonempty missing
              then [[Text "imaging_cdes.yaml standards_mapping_hooks.default_mapping_template missing keys: ";
                     Str (VList (map VStr missing))]]
              else []))
    /\ StronglySorted str_lt missing
    /\ (forall k, In k missing
                  <-> In k ["radlex_id"; "dicom_sr_code"; "fhir_observation_code";
                            "omop_concept_id"]%string
                      /\ lookup k template = None).
Proof.
  intros Hcontracts Htemplate.
  set (required := ["radlex_id"; "dicom_sr_code"; "fhir_observation_code";
                    "omop_concept_id"]%string).
  set (present := add_strs [] (map fst template)).
  exists (sort_strs (filter (fun s => negb (set_mem (VStr s) (map VStr present))) required)).
  split; [|split].
  - unfold run, validate_mapping_hooks.
    assert (Hloop : forall errors0,
      for_each modules_requiring_mappings
        (fun name =>
           (contract <- lift (module <- subscript files name ;;
                              get module "schema_contract" empty_dict)%result ;;
            flag <- lift (get contract "mapping_fields_optional" VNone) ;;
            if negb (truthy flag) then
              append [Str (VStr name);
                      Text ".yaml missing schema_contract.mapping_fields_optional"]
            else ret tt)%M) errors0
      = Ok (tt, errors0 ++ flat_map (flag_diagnostics contracts)
                             modules_requiring_mappings)).
    { apply for_each_diagnostics_in.
      intros name Hin errors0. specialize (Hcontracts name Hin).
      unfold schema_contract in Hcontracts.
      rewrite (bind_ok _ _ errors0 _ errors0 (lift_ok _ _ _ Hcontracts)).
      rewrite (bind_ok _ _ errors0 _ errors0
                 (lift_ok (get (VDict (contracts name)) "mapping_fields_optional" VNone)
                    _ _ eq_refl)).
      rewrite if_append. unfold flag_diagnostics, mapping_flag. cbn [get].
      destruct (lookup "mapping_fields_optional" (contracts name)) as [flag|];
        [destruct (truthy flag)|]; reflexivity. }
    rewrite (bind_ok _ _ _ tt _ (Hloop errors)).
    unfold mapping_template in Htemplate.
    destruct (module <- subscript files "imaging_cdes" ;;
              get module "standards_mapping_hooks" empty_dict)%result
      as [hooks|] eqn:Hhooks; [|discriminate].
    cbn [rbind] in Htemplate.
    rewrite (bind_ok _ _ _ hooks _ (lift_ok (Ok hooks) _ _ eq_refl)).
    rewrite (bind_ok _ _ _ _ _ (lift_ok _ _ _ Htemplate)).
    assert (Hmissing :
      (ks <- keys (VDict template) ;;
       present <- set_update_list [] ks ;;
       sorted (set_diff required_template_keys present))%result
      = Ok (map VStr (sort_strs
              (filter (fun s => negb (set_mem (VStr s) (map VStr present))) required)))).
    { cbn [keys rbind].
      replace (map (fun kv : string * value => VStr (fst kv)) template)
        with (map VStr (map fst template)) by (rewrite map_map; reflexivity).
      pose proof (set_update_list_strs (map fst template) []) as Hs. cbn [map] in Hs.
      rewrite Hs. cbn [rbind].
      change required_template_keys with (map VStr required).
      rewrite set_diff_strs. apply sorted_strs. }
    rewrite (bind_ok _ _ _ _ _ (lift_ok _ _ _ Hmissing)).
    rewrite truthy_str_list, if_append, <- app_assoc. reflexivity.
  - apply sort_strs_sorted, NoDup_filter. unfold required.
    repeat (constructor; [simpl; intuition discriminate|]). constructor.
  - intros k. rewrite sort_strs_In, filter_In. unfold present.
    rewrite negb_true_iff, <- not_true_iff_false, set_mem_str, In_VStr_map, add_strs_In.
    rewrite lookup_None_iff. simpl. tauto.
Qed.

(** ** Rules only append *)

Lemma rules_framed_all (float_of_str : string -> result float64) :
  (forall cbim provenance,
     framed (validate_threshold_consistency float_of_str cbim provenance))
  /\ (forall provenance, framed (validate_provenance_applicability provenance))
  /\ (forall temporal, framed (validate_temporal_kinetics temporal))
  /\ (forall temporal, framed (validate_temporal_thresholds float_of_str temporal))
  /\ (forall temporal, framed (validate_temporal_phase_ids temporal))
  /\ (forall temporal imaging, framed (validate_phase_alignment temporal imaging))
  /\ (forall imaging, framed (validate_tapvi_and_counts imaging))
  /\ (forall files, framed (validate_mapping_hooks files)).
Proof.
  repeat split; intros.
  - unfold validate_threshold_consistency. framed.
  - unfold validate_provenance_applicability. framed.
  - unfold validate_temporal_kinetics. framed.
  - unfold validate_temporal_thresholds. framed.
  - unfold validate_temporal_phase_ids. framed.
  - unfold validate_phase_alignment. framed.
  - unfold validate_tapvi_and_counts. framed.
  - unfold validate_mapping_hooks. framed.
Qed.

(** X8. Every rule, and [validate_schema], leaves the diagnostics it is
    given in place and appends its own, which do not depend on what the
    list held: run on a list, a rule returns that list followed by what it
    returns on the empty list, and raises exactly when it raises there. *)
Theorem rules_only_append (float_of_str : string -> result float64) :
  (forall cbim provenance,
     framed (validate_threshold_consistency float_of_str cbim provenance))
  /\ (forall provenance, framed (validate_provenance_applicability provenance))
  /\ (forall temporal, framed (validate_temporal_kinetics temporal))
  /\ (forall temporal, framed (validate_temporal_thresholds float_of_str temporal))
  /\ (forall temporal, framed (validate_temporal_phase_ids temporal))
  /\ (forall temporal imaging, framed (validate_phase_alignment temporal imaging))
  /\ (forall imaging, framed (validate_tapvi_and_counts imaging))
  /\ (forall files, framed (validate_mapping_hooks files))
  /\ (forall lib module_name data schema,
        framed (validate_schema lib module_name data schema)).
Proof.
  destruct (rules_framed_all float_of_str) as (F1 & F2 & F3 & F4 & F5 & F6 & F7 & F8).
  repeat split; auto. intros. apply framed_validate_schema.
Qed.

(** ** The rules in sequence *)

Lemma bind_framed {A} (m : M unit) (k : unit -> M A) (errors : list message) :
  framed m ->
  bind m k errors = match run m [] with
                    | Ok new => k tt (errors ++ new)
                    | Raise e => Raise e
                    end.
Proof.
  intros H. unfold bind, run. rewrite (H errors).
  destruct (m []) as [[[] new]|e]; reflexivity.
Qed.

Lemma bind_subscript {A B} (d : list (string * A)) (k : string) (v : A)
    (f : A -> M B) (errors : list message) :
  lookup k d = Some v ->
  bind (lift (subscript d k)) f errors = f v errors.
Proof. intros H. unfold bind, lift, subscript. rewrite H. reflexivity. Qed.

(** X9. With the four modules they read in the mapping, the rules of [main]
    run in the order of the source, each on its modules only: what they
    leave is the list they were given followed by what each rule reports on
    its own, rule after rule, and the first rule to raise ends the
    sequence with its exception. *)
Theorem rules_in_sequence (float_of_str : string -> result float64)
    (loaded : list (string * value)) (errors : list message)
    (cbim provenance temporal imaging : value) :
  lookup "cbim_framework" loaded = Some cbim ->
  lookup "provenance" loaded = Some provenance ->
  lookup "temporal_phases" loaded = Some temporal ->
  lookup "imaging_cdes" loaded = Some imaging ->
  run (consistency_rules float_of_str loaded) errors
  = (r1 <- run (validate_threshold_consistency float_of_str cbim provenance) [] ;;
     r2 <- run (validate_provenance_applicability provenance) [] ;;
     r3 <- run (validate_temporal_kinetics temporal) [] ;;
     r4 <- run (validate_temporal_thresholds float_of_str temporal) [] ;;
     r5 <- run (validate_temporal_phase_ids temporal) [] ;;
     r6 <- run (validate_phase_alignment temporal imaging) [] ;;
     r7 <- run (validate_tapvi_and_counts imaging) [] ;;
     r8 <- run (validate_mapping_hooks loaded) [] ;;
     Ok (errors ++ r1 ++ r2 ++ r3 ++ r4 ++ r5 ++ r6 ++ r7 ++ r8))%result.
Proof.
  intros Hc Hp Ht Hi.
  destruct (rules_framed_all float_of_str) as (F1 & F2 & F3 & F4 & F5 & F6 & F7 & F8).
  unfold run at 1. unfold consistency_rules.
  rewrite (bind_subscript _ _ _ _ _ Hc), (bind_subscript _ _ _ _ _ Hp).
  rewrite (bind_framed _ _ _ (F1 cbim provenance)).
  destruct (run (validate_threshold_consistency float_of_str cbim provenance) []) as [r1|e];
    [|reflexivity].
  rewrite (bind_subscript _ _ _ _ _ Hp), (bind_framed _ _ _ (F2 provenance)).
  destruct (run (validate_provenance_applicability provenance) []) as [r2|e];
    [|reflexivity].
  rewrite (bind_subscript _ _ _ _ _ Ht), (bind_framed _ _ _ (F3 temporal)).
  destruct (run (validate_temporal_kinetics temporal) []) as [r3|e]; [|reflexivity].
  rewrite (bind_subscript _ _ _ _ _ Ht), (bind_framed _ _ _ (F4 temporal)).
  destruct (run (validate_temporal_thresholds float_of_str temporal) []) as [r4|e];
    [|reflexivity].
  rewrite (bind_subscript _ _ _ _ _ Ht), (bind_framed _ _ _ (F5 temporal)).
  destruct (run (validate_temporal_phase_ids temporal) []) as [r5|e]; [|reflexivity].
  rewrite (bind_subscript _ _ _ _ _ Ht), (bind_subscript _ _ _ _ _ Hi).
  rewrite (bind_framed _ _ _ (F6 temporal imaging)).
  destruct (run (validate_phase_alignment temporal imaging) []) as [r6|e]; [|reflexivity].
  rewrite (bind_subscript _ _ _ _ _ Hi), (bind_framed _ _ _ (F7 imaging)).
  destruct (run (validate_tapvi_and_counts imaging) []) as [r7|e]; [|reflexivity].
  rewrite (F8 loaded). unfold run.
  destruct (validate_mapping_hooks loaded []) as [[[] r8]|e]; [|reflexivity].
  cbn [rbind]. rewrite <- !app_assoc. reflexivity.
Qed.

(** ** The schema step *)

Lemma contains_dict (defs : list (string * value)) (k : string) :
  contains (VDict defs) k = Ok (has_key k defs).
Proof. reflexivity. Qed.

Lemma validate_schema_dict (validate : value -> value -> validation)
    (module_name : string) (data : value) (schema : list (string * value))
    (errors : list message) :
  (forall e, validate data (module_schema schema module_name) <> OtherError e) ->
  run (validate_schema (Some validate) module_name data (VDict schema)) errors
  = Ok (errors
        ++ match validate data (module_schema schema module_name) with
           | ValidationError absolute_path msg =>
               [violation_message module_name absolute_path msg]
           | _ => []
           end).
Proof.
  intros Hok. unfold run, validate_schema.
  rewrite (bind_ok _ _ errors (module_schema schema module_name) errors
             (lift_ok _ _ _ eq_refl)).
  destruct (validate data (module_schema schema module_name)) as [|path msg|e].
  - unfold ret. rewrite app_nil_r. reflexivity.
  - unfold append, violation_message. cbn [truthy].
    destruct (String.eqb (String.concat "/" (map path_str path)) ""); reflexivity.
  - exfalso. eapply Hok. reflexivity.
Qed.

Lemma validate_modules_dict (env : environment)
    (validate : value -> value -> validation) (schema defs : list (string * value))
    (modules : list (string * value)) (warnings errors : list message) :
  jsonschema env = Some validate ->
  (forall name data e,
     In (name, data) modules -> has_key name defs = true ->
     validate data (module_schema schema name) <> OtherError e) ->
  validate_modules env (VDict schema) (VDict defs) modules warnings errors
  = Ok (warnings ++ flat_map (schema_warnings defs) modules,
        errors ++ flat_map (schema_errors validate schema defs) modules).
Proof.
  intros Hlib. revert warnings errors.
  induction modules as [|[name data] modules IH]; intros warnings errors Hok.
  - simpl. rewrite !app_nil_r. reflexivity.
  - cbn [validate_modules flat_map]. rewrite contains_dict. cbn [rbind].
    unfold schema_warnings at 1, schema_errors at 1. cbn [fst snd].
    destruct (has_key name defs) eqn:Hk; cbn [negb].
    + rewrite Hlib, validate_schema_dict
        by (intros e; apply (Hok name data e); [now left | exact Hk]).
      cbn [rbind]. rewrite IH by (intros n d e Hin; apply Hok; now right).
      rewrite <- app_assoc. reflexivity.
    + rewrite IH by (intros n d e Hin; apply Hok; now right).
      rewrite <- app_assoc. reflexivity.
Qed.

(** X10. With [jsonschema] there and a [schema.json] that is a mapping whose
    [$defs] is a mapping (an absent [$defs] stands for the empty one), the
    schema step goes through the loaded modules in order: a module without an entry in [$defs] gets one warning and is not
    validated; a module with an entry is validated against the schema that
    refers to its entry alone, and a violation is one error, which gives the
    path of the violation unless the path is empty. *)
Theorem schema_step_report (env : environment) (validate : value -> value -> validation)
    (schema defs : list (string * value)) (loaded : list (string * value))
    (warnings errors : list message) :
  skip_schema env = false ->
  jsonschema env = Some validate ->
  schema_json env = Some (Ok (VDict schema)) ->
  get (VDict schema) "$defs" empty_dict = Ok (VDict defs) ->
  (forall name data e,
     In (name, data) loaded -> has_key name defs = true ->
     validate data (module_schema schema name) <> OtherError e) ->
  schema_step env loaded warnings errors
  = Ok (warnings ++ flat_map (schema_warnings defs) loaded,
        errors ++ flat_map (schema_errors validate schema defs) loaded).
Proof.
  intros Hskip Hlib Hschema Hdefs Hok.
  unfold schema_step. rewrite Hskip, Hlib, Hschema. cbn [negb rbind].
  rewrite Hdefs. cbn [rbind]. apply validate_modules_dict; assumption.
Qed.

(** X11. With [--skip-schema] the schema step does nothing: whenever the
    seven files load, [main] prints no warning, reports what the rules
    report, and gives the same result whether [jsonschema] and
    [schema.json] are there or not. *)
Theorem skip_schema_bypasses (float_of_str : string -> result float64)
    (env : environment) (loaded : list (string * value)) :
  skip_schema env = true ->
  load_modules env YAML_FILES [] [] = Ok (loaded, []) ->
  main float_of_str env
  = match run (consistency_rules float_of_str loaded) [] with
    | Ok errors => Ok (report [] errors)
    | Raise e => Raise e
    end
  /\ (forall env',
        skip_schema env' = true ->
        (forall filename, yaml_file env' filename = yaml_file env filename) ->
        main float_of_str env' = main float_of_str env).
Proof.
  intros Hskip Hl.
  assert (Hmain : forall e l,
            skip_schema e = true -> load_modules e YAML_FILES [] [] = Ok (l, []) ->
            main float_of_str e
            = match run (consistency_rules float_of_str l) [] with
              | Ok errors => Ok (report [] errors)
              | Raise e => Raise e
              end).
  { intros e l Hs Hload. rewrite (main_after_loading float_of_str e l Hload).
    unfold schema_step. rewrite Hs. reflexivity. }
  split; [now apply Hmain|].
  intros env' Hskip' Hfiles.
  assert (Hl' : load_modules env' YAML_FILES [] [] = Ok (loaded, [])).
  { rewrite (load_modules_ext env env' _ _ _ Hfiles). exact Hl. }
  rewrite (Hmain env loaded Hskip Hl), (Hmain env' loaded Hskip' Hl'). reflexivity.
Qed.

(** ** What a successful load leaves *)

Lemma no_failure_inv (env : environment) (files : list string) :
  first_uncaught env files = None ->
  flat_map (load_failure env) files = [] ->
  forall filename, In filename files -> exists content, yaml_file env filename = Loaded content.
Proof.
  induction files as [|f files IH]; intros Hnone H filename Hin; [contradiction|].
  cbn [flat_map] in H. apply app_eq_nil in H. destruct H as [Hf Hrest].
  cbn [first_uncaught] in Hnone. unfold uncaught in Hnone.
  destruct Hin as [<- | Hin].
  - unfold load_failure in Hf. destruct (yaml_file env f); try discriminate. eauto.
  - apply IH; auto. destruct (yaml_file env f); auto; discriminate.
Qed.

(** X12. When the loading step records no error, the mapping it leaves has
    the seven modules, each under its name with the tree of its file: the
    subscripts of [main] on the mapping find their module. *)
Theorem loaded_has_every_module (env : environment) (loaded : list (string * value)) :
  load_modules env YAML_FILES [] [] = Ok (loaded, []) ->
  forall module_name filename,
    In (module_name, filename) YAML_FILES ->
    exists content,
      yaml_file env filename = Loaded content
      /\ subscript loaded module_name = Ok content.
Proof.
  intros Hl module_name filename Hin.
  apply load_modules_returns in Hl. destruct Hl as (Hnone & Hloaded & Hfailures).
  symmetry in Hfailures.
  pose proof (no_failure_inv env (map snd YAML_FILES) Hnone Hfailures) as Hall.
  assert (H1 := Hall "cbim_framework.yaml"%string).
  assert (H2 := Hall "clinical_entities.yaml"%string).
  assert (H3 := Hall "imaging_cdes.yaml"%string).
  assert (H4 := Hall "temporal_phases.yaml"%string).
  assert (H5 := Hall "provenance.yaml"%string).
  assert (H6 := Hall "implementation_science.yaml"%string).
  assert (H7 := Hall "methodology_extraction.yaml"%string).
  destruct H1 as [c1 E1]; [simpl; tauto|].
  destruct H2 as [c2 E2]; [simpl; tauto|].
  destruct H3 as [c3 E3]; [simpl; tauto|].
  destruct H4 as [c4 E4]; [simpl; tauto|].
  destruct H5 as [c5 E5]; [simpl; tauto|].
  destruct H6 as [c6 E6]; [simpl; tauto|].
  destruct H7 as [c7 E7]; [simpl; tauto|].
  subst loaded. unfold YAML_FILES, loaded_entry. cbn [flat_map fst snd].
  rewrite E1, E2, E3, E4, E5, E6, E7. cbn [app].
  simpl in Hin.
  repeat (destruct Hin as [Hin | Hin];
          [injection Hin as <- <-; eexists; split; [eassumption | reflexivity]|]).
  contradiction.
Qed.

(** ** Trees of another shape *)

(** X13. A legacy container that is truthy and is no mapping (a string, a
    list, a number) ends rule 3 with [AttributeError]: the rule takes the
    legacy branch and calls [get] on it. *)
Theorem legacy_container_not_a_mapping (temporal subacute windows : value)
    (errors : list message) :
  subacute_block temporal = Ok subacute ->
  get subacute "key_biomarker_windows" empty_dict = Ok windows ->
  truthy windows = true ->
  is_dict windows = false ->
  run (validate_temporal_kinetics temporal) errors = Raise AttributeError.
Proof.
  intros Hs Hw Ht Hd. unfold run, validate_temporal_kinetics.
  rewrite (bind_ok _ _ errors subacute errors (lift_ok _ _ _ Hs)).
  rewrite (bind_ok _ _ errors _ errors (lift_ok _ _ _ Hw)).
  rewrite Ht. destruct windows; try discriminate; reflexivity.
Qed.

(** X14. A module whose tree is not a mapping (an empty file loads as
    [None]) ends every rule that reads it with [AttributeError], before
    anything is reported; so it ends the rules of [main]. *)
Theorem module_not_a_mapping (float_of_str : string -> result float64)
    (module other : value) (errors : list message) :
  is_dict module = false ->
  run (validate_threshold_consistency float_of_str module other) errors = Raise AttributeError
  /\ run (validate_provenance_applicability module) errors = Raise AttributeError
  /\ run (validate_temporal_kinetics module) errors = Raise AttributeError
  /\ run (validate_temporal_thresholds float_of_str module) errors = Raise AttributeError
  /\ run (validate_temporal_phase_ids module) errors = Raise AttributeError
  /\ run (validate_phase_alignment module other) errors = Raise AttributeError
  /\ run (validate_tapvi_and_counts module) errors = Raise AttributeError
  /\ (forall loaded provenance,
        lookup "cbim_framework" loaded = Some module ->
        lookup "provenance" loaded = Some provenance ->
        run (consistency_rules float_of_str loaded) errors = Raise AttributeError).
Proof.
  intros Hd.
  assert (H1 : forall provenance,
            run (validate_threshold_consistency float_of_str module provenance) errors
            = Raise AttributeError)
    by (intros provenance; destruct module; try discriminate; reflexivity).
  repeat split; try (destruct module; try discriminate; reflexivity).
  intros loaded provenance Hc Hp. unfold run, consistency_rules.
  rewrite (bind_subscript _ _ _ _ _ Hc), (bind_subscript _ _ _ _ _ Hp).
  specialize (H1 provenance). unfold run in H1. unfold bind at 1.
  destruct (validate_threshold_consistency float_of_str module provenance errors)
    as [[[] ?]|e]; [discriminate | exact H1].
Qed.

(** ** On the example documents *)

Lemma biomarker_threshold_first_match_witness :
  get_biomarker_threshold framework_duplicate "gfap_pg_ml" = Ok (VFloat f30).
Proof.
  refine (proj1 (biomarker_threshold_first_match framework_duplicate duplicate_variables
                   "gfap_pg_ml" eq_refl)
            [[("id", VStr "uchl1_pg_ml"); ("ct_threshold", VFloat f360)]]
            [("id", VStr "gfap_pg_ml"); ("ct_threshold", VFloat f30)]
            [[("id", VStr "gfap_pg_ml"); ("ct_threshold", VFloat f29_5)]]
            eq_refl _ eq_refl).
  repeat constructor. discriminate.
Defined.

Lemma temporal_thresholds_two_checks_witness :
  run (validate_temporal_thresholds no_float good_temporal) [] = Ok [].
Proof.
  exact (proj1 (temporal_thresholds_two_checks no_float good_temporal []
                  (VFloat f30) (VFloat f360) true true eq_refl eq_refl
                  (or_intror eq_refl) (or_intror eq_refl))).
Defined.

Lemma provenance_applicability_checks_witness :
  run (validate_provenance_applicability partial_provenance) []
  = Ok [ [Text "provenance.yaml "; Str (VStr "gfap_ct_threshold");
          Text ".applies_to missing required contexts: "; Str (VList [VStr "mild_tbi"])];
         [Text "provenance.yaml missing threshold_provenance.";
          Str (VStr "uchl1_ct_threshold"); Text ".applies_to"] ].
Proof.
  exact (proj1 (provenance_applicability_checks partial_provenance []
                  (Some ["pediatric"; "adult"]%string) None eq_refl eq_refl)).
Defined.

Lemma threshold_conversion_failure_witness :
  run (validate_threshold_consistency no_float
         (framework (VList [VInt 30]) (VFloat f360)) good_provenance) []
  = Raise TypeError.
Proof.
  refine (proj1 (threshold_conversion_failure no_float
                   (framework (VList [VInt 30]) (VFloat f360)) good_provenance []
                   (VList [VInt 30]) (VFloat f360) (VFloat f30) (VFloat f360) TypeError
                   eq_refl eq_refl eq_refl eq_refl _ eq_refl)).
  discriminate.
Defined.

Lemma nearly_equal_with_tolerance_witness :
  nearly_equal no_float (VInt 30) (VFloat f29_5) f1
  = Ok (fleb (fabs (fsub f30 f29_5)) f1).
Proof.
  exact (proj2 (nearly_equal_with_tolerance no_float (VInt 30) (VFloat f29_5)
                  f30 f29_5 f1 eq_refl eq_refl)
           eq_refl eq_refl eq_refl).
Defined.

Lemma nearly_equal_not_finite_witness :
  nearly_equal no_float (VFloat S754_nan) (VFloat f30) default_tol = Ok false
  /\ nearly_equal no_float (VFloat f30) (VFloat S754_nan) default_tol = Ok false.
Proof.
  exact (nearly_equal_not_finite no_float (VFloat f30) S754_nan f30 default_tol
           eq_refl eq_refl eq_refl eq_refl).
Defined.

Lemma mapping_hooks_report_witness :
  exists missing : list string,
    run (validate_mapping_hooks loaded_sparse_hooks) []
    = Ok (flat_map (flag_diagnostics (contract_of loaded_sparse_hooks))
            modules_requiring_mappings
          ++ (if nonempty missing
              then [[Text "imaging_cdes.yaml standards_mapping_hooks.default_mapping_template missing keys: ";
                     Str (VList (map VStr missing))]]
              else []))
    /\ StronglySorted str_lt missing
    /\ (forall k, In k missing
                  <-> In k ["radlex_id"; "dicom_sr_code"; "fhir_observation_code";
                            "omop_concept_id"]%string
                      /\ lookup k [ ("omop_concept_id", VNone); ("radlex_id", VNone) ] = None).
Proof.
  apply (mapping_hooks_report loaded_sparse_hooks []
           (contract_of loaded_sparse_hooks)
           [ ("omop_concept_id", VNone); ("radlex_id", VNone) ]);
    [|reflexivity].
  intros name Hin. simpl in Hin.
  repeat (destruct Hin as [<- | Hin]; [reflexivity|]).
  contradiction.
Defined.

(** What rule 8 reports on these modules. *)
Example sparse_hooks_report :
  run (validate_mapping_hooks loaded_sparse_hooks) []
  = Ok [ [Str (VStr "clinical_entities");
          Text ".yaml missing schema_contract.mapping_fields_optional"];
         [Text "imaging_cdes.yaml standards_mapping_hooks.default_mapping_template missing keys: ";
          Str (VList [VStr "dicom_sr_code"; VStr "fhir_observation_code"])] ].
Proof. reflexivity. Qed.

Lemma rules_in_sequence_witness :
  run (consistency_rules no_float (good_loaded short_imaging))
    [[Text "schema.json not found"]]
  = Ok [ [Text "schema.json not found"];
         [Text "Expected 18 supplementary CDEs, found "; Str (VInt 17)] ].
Proof.
  exact (rules_in_sequence no_float (good_loaded short_imaging)
           [[Text "schema.json not found"]]
           good_framework good_provenance good_temporal short_imaging
           eq_refl eq_refl eq_refl eq_refl).
Defined.

Lemma schema_step_report_witness :
  schema_step env_two_defs (good_loaded good_imaging) [] []
  = Ok (flat_map (schema_warnings two_defs) (good_loaded good_imaging),
        flat_map (schema_errors rejects_imaging two_defs_schema two_defs)
          (good_loaded good_imaging)).
Proof.
  refine (schema_step_report env_two_defs rejects_imaging two_defs_schema two_defs
            (good_loaded good_imaging) [] [] eq_refl eq_refl eq_refl eq_refl _).
  intros name data e _ _. unfold rejects_imaging, module_schema.
  destruct (py_eq _ _); discriminate.
Defined.

(** What the schema step leaves there: five warnings, and the one error,
    with the path of the violation. *)
Example two_defs_report :
  schema_step env_two_defs (good_loaded good_imaging) [] []
  = Ok (map (fun name =>
               [Text "schema.json has no $defs entry for "; Str (VStr name);
                Text "; skipping schema validation for this module"])
          [ "cbim_framework"; "clinical_entities"; "temporal_phases";
            "implementation_science"; "methodology_extraction" ]%string,
        [[Str (VStr "imaging_cdes"); Text " schema validation failed";
          Text " at '"; Str (VStr "core_cdes/0/id"); Text "'"; Text ": ";
          Str (VStr "'id' is a required property")]]).
Proof. reflexivity. Qed.

Lemma skip_schema_bypasses_witness :
  main no_float env_skip_schema = Ok (report [] []).
Proof.
  exact (proj1 (skip_schema_bypasses no_float env_skip_schema (good_loaded good_imaging)
                  eq_refl eq_refl)).
Defined.

Lemma loaded_has_every_module_witness :
  exists content,
    yaml_file env_no_library "provenance.yaml" = Loaded content
    /\ subscript (good_loaded good_imaging) "provenance" = Ok content.
Proof.
  apply (loaded_has_every_module env_no_library (good_loaded good_imaging) eq_refl
           "provenance" "provenance.yaml").
  simpl. tauto.
Defined.

Lemma legacy_container_not_a_mapping_witness :
  run (validate_temporal_kinetics (temporal [("key_biomarker_windows", VStr "n/a")])) []
  = Raise AttributeError.
Proof.
  exact (legacy_container_not_a_mapping
           (temporal [("key_biomarker_windows", VStr "n/a")])
           (snd (phase "subacute" [("key_biomarker_windows", VStr "n/a")]))
           (VStr "n/a") [] eq_refl eq_refl eq_refl eq_refl).
Defined.

Lemma module_not_a_mapping_witness :
  run (validate_threshold_consistency no_float VNone good_provenance) []
  = Raise AttributeError.
Proof.
  exact (proj1 (module_not_a_mapping no_float VNone good_provenance [] eq_refl)).
Defined.
